(** * The kernel contract of xuperunion: a shallow embedding and its properties

    The development follows [core/contract/kernel]: the method tables, the
    dispatcher [Run]/[Rollback], the argument validators, the chain-lifecycle
    operations and the guarded parameter updates.  The collaborators the kernel
    calls (ledger, state meta, crypto client, file system, chain register) are
    not part of the kernel file; they appear here either as explicit state
    ([World]) or as the fields of the record [Externals]. *)

From Stdlib Require Import ZArith String List Bool.
From stdpp Require Import base option gmap sets list strings pretty.

Set Warnings "-register-all".

Local Open Scope string_scope.
Local Open Scope Z_scope.

(** ** Go values *)

(** A JSON number decodes to a finite [float64]; it is kept as the dyadic
    rational [mant * 2 ^ expo]. *)
Record float64 := Float64 { mant : Z; expo : Z }.

Definition int64_min : Z := - 2 ^ 63.
Definition int64_max : Z := 2 ^ 63 - 1.

(** The conversion [int64(f)]: truncation toward zero.  Out of the [int64]
    range Go leaves the result to the implementation; amd64 yields the
    minimal integer, which is what is written here. *)
Definition int64_of_float64 (f : float64) : Z :=
  let t := if 0 <=? expo f then mant f * 2 ^ expo f
           else Z.quot (mant f) (2 ^ (- expo f)) in
  if (int64_min <=? t) && (t <=? int64_max) then t else int64_min.

Definition float64_of_Z (z : Z) : float64 := Float64 z 0.

(** [interface{}] as the JSON decoder fills it. *)
Inductive Value :=
| VNil
| VString (s : string)
| VNumber (f : float64)
| VBool (b : bool)
| VList (l : list Value)
| VObject (m : gmap string Value).

(** [reflect.TypeOf], as [%v] prints it. *)
Definition typeOf (v : Value) : string :=
  match v with
  | VNil => "<nil>"
  | VString _ => "string"
  | VNumber _ => "float64"
  | VBool _ => "bool"
  | VList _ => "[]interface {}"
  | VObject _ => "map[string]interface {}"
  end.

(** A byte slice: [None] is the nil slice, so that Leibniz equality is
    [reflect.DeepEqual]. *)
Definition bytes := option string.

(** ** Errors *)

Inductive error :=
| ErrBlockChainExist
| ErrCreateBlockChain
| ErrMethodNotImplemented
| ErrNoEnoughUTXO
| ErrAddrNotInWhiteList
| ErrPermissionDenied
| ErrInvalidChainName
| Errorf (msg : string)        (* errors.New / fmt.Errorf inside the kernel *)
| ExtError (msg : string).     (* an error value made by a collaborator *)

Definition errText (e : error) : string :=
  match e with
  | ErrBlockChainExist => "BlockChain Exist"
  | ErrCreateBlockChain => "Create BlockChain error"
  | ErrMethodNotImplemented => "Method not implemented"
  | ErrNoEnoughUTXO => "No enough money to create new chain"
  | ErrAddrNotInWhiteList => "Address not in white list"
  | ErrPermissionDenied => "Permission denied to call this contract"
  | ErrInvalidChainName => "Invalid Chain name"
  | Errorf m => m
  | ExtError m => m
  end.

#[global] Instance error_eq_dec : EqDecision error.
Proof. solve_decision. Defined.

(** Go's [error]: [None] is nil. *)
Abbreviation goerror := (option error).

(** ** Protocol records *)

Record GasPrice := mkGasPrice
  { CpuRate : Z; MemRate : Z; DiskRate : Z; XfeeRate : Z }.

(** [ledger.InvokeRequest], the JSON shape. *)
Record JInvokeRequest := mkJInvokeRequest
  { JModuleName : string; JContractName : string; JMethodName : string;
    JArgs : gmap string string }.

(** [pb.InvokeRequest], restricted to the four fields the kernel reads. *)
Record InvokeRequest := mkInvokeRequest
  { ModuleName : string; ContractName : string; MethodName : string;
    Args : gmap string bytes }.

Record TxOutputExt := mkTxOutputExt
  { Bucket : string; ExtKey : string; ExtValue : string }.

(** Modelled from the spec: [pb.Transaction], of which the kernel uses the
    txid, the descriptor bytes, the extended outputs, the source addresses
    ("the transaction's set of source addresses") and the outputs paid to an
    address ("the transaction's self-payment to name"). *)
Record Transaction := mkTransaction
  { Txid : string;
    Desc : string;
    TxOutputsExt : list TxOutputExt;
    FromAddrs : list string;
    TxOutputs : list (string * Z) }.

(** [contract.TxDesc]. *)
Record TxDesc := mkTxDesc
  { Method : string;
    DArgs : gmap string Value;
    Tx : option Transaction }.

(** [desc.Args[name]]: a missing key and a JSON null both read as nil. *)
Definition arg (desc : TxDesc) (name : string) : Value :=
  default VNil (DArgs desc !! name).

Definition isNil (v : Value) : bool :=
  match v with VNil => true | _ => false end.

(** Modelled from the spec: [Transaction.FromAddrInList], "the transaction's
    set of source addresses must intersect NewChainWhiteList". *)
Definition FromAddrInList (tx : Transaction) (wl : gmap string bool) : bool :=
  existsb (fun a => default false (wl !! a)) (FromAddrs tx).

(** Modelled from the spec: [Transaction.GetAmountByAddress], the sum of the
    outputs of the transaction paid to the address. *)
Definition GetAmountByAddress (tx : Transaction) (addr : string) : Z :=
  fold_right (fun o acc => if String.eqb (fst o) addr then snd o + acc else acc)
             0 (TxOutputs tx).

(** [config.KernelConfig]. *)
Record KernelConfig := mkKernelConfig
  { NewChainWhiteList : gmap string bool;
    DisableCreateChainWhiteList : bool;
    MinNewChainAmount : string;
    EnableStopChain : bool;
    ModifyBlockAddr : string }.

(** ** The state the kernel acts on *)

(** Modelled from the spec: [StateMeta], "the UTXO/state engine exposing
    parameter getters/setters".  The six projections are its getters
    ([GetForbiddenContract] and [GetGasPrice] read through the generated
    accessors, for which a nil message is the zero record). *)
Record StateMeta := mkStateMeta
  { GetMaxBlockSize : Z;
    GetIrreversibleSlideWindow : Z;
    GetNewAccountResourceAmount : Z;
    GetGasPrice : GasPrice;
    GetForbiddenContract : InvokeRequest;
    GetReservedContracts : list InvokeRequest }.

(** A request to one of the setters of [StateMeta]. *)
Inductive MetaWrite :=
| WMaxBlockSize (z : Z)
| WIrreversibleSlideWindow (z : Z)
| WNewAccountResourceAmount (z : Z)
| WGasPrice (g : GasPrice)
| WForbiddenContract (r : InvokeRequest)
| WReservedContracts (l : list InvokeRequest).

Definition applyWrite (u : MetaWrite) (m : StateMeta) : StateMeta :=
  match u with
  | WMaxBlockSize z =>
      mkStateMeta z (GetIrreversibleSlideWindow m) (GetNewAccountResourceAmount m)
                  (GetGasPrice m) (GetForbiddenContract m) (GetReservedContracts m)
  | WIrreversibleSlideWindow z =>
      mkStateMeta (GetMaxBlockSize m) z (GetNewAccountResourceAmount m)
                  (GetGasPrice m) (GetForbiddenContract m) (GetReservedContracts m)
  | WNewAccountResourceAmount z =>
      mkStateMeta (GetMaxBlockSize m) (GetIrreversibleSlideWindow m) z
                  (GetGasPrice m) (GetForbiddenContract m) (GetReservedContracts m)
  | WGasPrice g =>
      mkStateMeta (GetMaxBlockSize m) (GetIrreversibleSlideWindow m)
                  (GetNewAccountResourceAmount m) g
                  (GetForbiddenContract m) (GetReservedContracts m)
  | WForbiddenContract r =>
      mkStateMeta (GetMaxBlockSize m) (GetIrreversibleSlideWindow m)
                  (GetNewAccountResourceAmount m) (GetGasPrice m) r
                  (GetReservedContracts m)
  | WReservedContracts l =>
      mkStateMeta (GetMaxBlockSize m) (GetIrreversibleSlideWindow m)
                  (GetNewAccountResourceAmount m) (GetGasPrice m)
                  (GetForbiddenContract m) l
  end.

(** A call received by the [ChainRegister]. *)
Inductive RegisterCall :=
| CallRegisterBlockChain (name : string)
| CallUnloadBlockChain (name : string).

(** A historical rewrite handed to [Ledger.UpdateBlockChainData]. *)
Record Rewrite := mkRewrite
  { rwTxid : string; rwNewTxid : string; rwPublicKey : string;
    rwSign : string; rwHeight : Z }.

(** Everything outside the kernel instance that its methods read or change:
    the state meta, the ledger (fee flag, confirmed transactions, persisted
    rewrites), the read cache of the state model as the set of its
    [(bucket, version)] keys, the file system as the set of existing paths,
    the calls the chain register has received, and the counter behind
    [global.Glogid]. *)
Record World := mkWorld
  { meta : StateMeta;
    noFee : bool;
    ledgerTxs : gmap string Transaction;
    rewrites : list Rewrite;
    bucketCache : gset (string * string);
    paths : gset string;
    registerLog : list RegisterCall;
    logid : nat }.

Definition setMeta (m : StateMeta) (w : World) : World :=
  mkWorld m (noFee w) (ledgerTxs w) (rewrites w) (bucketCache w) (paths w)
          (registerLog w) (logid w).
Definition setRewrites (r : list Rewrite) (w : World) : World :=
  mkWorld (meta w) (noFee w) (ledgerTxs w) r (bucketCache w) (paths w)
          (registerLog w) (logid w).
Definition setBucketCache (c : gset (string * string)) (w : World) : World :=
  mkWorld (meta w) (noFee w) (ledgerTxs w) (rewrites w) c (paths w)
          (registerLog w) (logid w).
Definition setPaths (p : gset string) (w : World) : World :=
  mkWorld (meta w) (noFee w) (ledgerTxs w) (rewrites w) (bucketCache w) p
          (registerLog w) (logid w).
Definition setRegisterLog (l : list RegisterCall) (w : World) : World :=
  mkWorld (meta w) (noFee w) (ledgerTxs w) (rewrites w) (bucketCache w)
          (paths w) l (logid w).
Definition setLogid (n : nat) (w : World) : World :=
  mkWorld (meta w) (noFee w) (ledgerTxs w) (rewrites w) (bucketCache w)
          (paths w) (registerLog w) n.

(** ** Interfaces of the collaborators *)

Record ecdsaPublicKey := mkEcdsaPublicKey { Curve : string; X : Z; Y : Z }.

(** The crypto client, an interface in the source. *)
Record CryptoClient := mkCryptoClient
  { GetEcdsaPublicKeyFromJsonStr : string -> error + ecdsaPublicKey;
    VerifyAddressUsingPublicKey : string -> ecdsaPublicKey -> bool * goerror;
    VerifyECDSA : ecdsaPublicKey -> string -> string -> bool * goerror }.

(** [ChainRegister]: the verdict of each request. *)
Record ChainRegister := mkChainRegister
  { RegisterBlockChain : string -> goerror;
    UnloadBlockChain : string -> goerror }.

(** Functions and constants of other packages that the kernel file calls. *)
Record Externals := mkExternals
  { mapstructure_InvokeRequest : Value -> error + JInvokeRequest;
    mapstructure_GasPrice : Value -> error + GasPrice;
    InvokeRequestFromJSON2Pb : list JInvokeRequest -> list InvokeRequest * goerror;
    json_RootConfig : string -> goerror;
    json_object : string -> error + gmap string Value;
    CreateCryptoClientFromJSONPublicKey : string -> error + CryptoClient;
    hex_DecodeString : string -> error + string;
    hex_EncodeToString : string -> string;
    MakeVersion : string -> Z -> string;
    MakeTxDigestHash : Transaction -> error + string;
    Ledger_UpdateBlockChainData : Rewrite -> goerror;
    StateMeta_put : MetaWrite -> StateMeta -> goerror;
    big_SetString : string -> Z;
    filepath_Join : string -> string -> string;
    SBlockChainConfig : string;
    CryptoTypeDefault : string;
    os_MkdirAll : string -> goerror;
    os_Mkdir : string -> goerror;
    ioutil_WriteFile : string -> string -> goerror;
    os_Rename : string -> string -> goerror;
    NewLedger : string -> string -> string -> goerror;
    GenerateRootTx : string -> error + Transaction;
    FormatRootBlock : list Transaction -> error + string;
    NewUtxoVM : string -> string -> string -> string -> goerror;
    Play : string -> goerror }.

(** [contract.TxContext]: which handles are wired, and the height of the
    carrying block. *)
Record TxContext := mkTxContext
  { LedgerObj : bool; UtxoMeta : bool; Block : option Z }.

(** The kernel instance. *)
Record Kernel := mkKernel
  { datapath : string;
    register : option ChainRegister;
    context : option TxContext;
    bcName : string;
    kernelConfig : KernelConfig }.

Definition SetContext (k : Kernel) (c : option TxContext) : Kernel :=
  mkKernel (datapath k) (register k) c (bcName k) (kernelConfig k).

(** ** Computations: state passing, with Go's panic *)

Inductive outcome (A : Type) :=
| Done (a : A)
| Panic.
Arguments Done {A} a.
Arguments Panic {A}.

Definition M (A : Type) : Type := World -> outcome A * World.

#[global] Instance M_ret : MRet M := fun A a w => (Done a, w).
#[global] Instance M_bind : MBind M := fun A B f m w =>
  match m w with
  | (Done a, w') => f a w'
  | (Panic, w') => (Panic, w')
  end.

Definition panic {A} : M A := fun w => (Panic, w).
Definition getWorld : M World := fun w => (Done w, w).
Definition modifyWorld (f : World -> World) : M unit := fun w => (Done tt, f w).

(** [return err] *)
Definition fail (e : error) : M goerror := mret (Some e).
Definition ok : M goerror := mret None.

(** The type of the entries of the method tables. *)
Abbreviation KernelMethodFunc := (Kernel -> TxDesc -> M goerror).

(** ** The kernel's methods *)

Section KernelMethods.
Context (E : Externals).

(** *** File system, register, state meta and ledger as the kernel sees them *)

(** [global.PathExists] *)
Definition PathExists (p : string) : M bool :=
  fun w => (Done (bool_decide (p ∈ paths w)), w).

(** [p] is [dir] or lies below it. *)
Definition under (dir p : string) : bool :=
  String.eqb p dir || String.prefix (dir +:+ "/") p.

(** [os.MkdirAll], [os.Mkdir] and [ioutil.WriteFile]: when the call succeeds
    the path exists afterwards. *)
Definition MkdirAll (p : string) : M goerror := fun w =>
  match os_MkdirAll E p with
  | Some e => (Done (Some e), w)
  | None => (Done None, setPaths ({[p]} ∪ paths w) w)
  end.

Definition Mkdir (p : string) : M goerror := fun w =>
  match os_Mkdir E p with
  | Some e => (Done (Some e), w)
  | None => (Done None, setPaths ({[p]} ∪ paths w) w)
  end.

Definition WriteFile (p data : string) : M goerror := fun w =>
  match ioutil_WriteFile E p data with
  | Some e => (Done (Some e), w)
  | None => (Done None, setPaths ({[p]} ∪ paths w) w)
  end.

(** [os.RemoveAll]: the path and everything below it are gone; its error is
    dropped by every caller. *)
Definition RemoveAll (dir : string) : M unit :=
  modifyWorld (fun w => setPaths (filter (fun p => under dir p = false) (paths w)) w).

Definition rebase (old new p : string) : string :=
  if under old p
  then new +:+ String.substring (String.length old)
                                (String.length p - String.length old) p
  else p.

(** [os.Rename] *)
Definition Rename (old new : string) : M goerror := fun w =>
  match os_Rename E old new with
  | Some e => (Done (Some e), w)
  | None => (Done None, setPaths (set_map (rebase old new) (paths w)) w)
  end.

(** [global.Glogid]: a fresh identifier at each call. *)
Definition Glogid : M string := fun w =>
  (Done (pretty (logid w)), setLogid (S (logid w)) w).

Definition callRegisterBlockChain (r : ChainRegister) (name : string) : M goerror :=
  fun w => (Done (RegisterBlockChain r name),
            setRegisterLog (registerLog w ++ [CallRegisterBlockChain name]) w).

Definition callUnloadBlockChain (r : ChainRegister) (name : string) : M goerror :=
  fun w => (Done (UnloadBlockChain r name),
            setRegisterLog (registerLog w ++ [CallUnloadBlockChain name]) w).

(** [k.context == nil || k.context.LedgerObj == nil] *)
Definition noLedgerObj (k : Kernel) : bool :=
  match context k with
  | None => true
  | Some c => negb (LedgerObj c)
  end.

(** [k.context == nil || k.context.UtxoMeta == nil] *)
Definition noUtxoMeta (k : Kernel) : bool :=
  match context k with
  | None => true
  | Some c => negb (UtxoMeta c)
  end.

(** Dereferencing [k.context.UtxoMeta] and [k.context.LedgerObj]. *)
Definition derefUtxoMeta (k : Kernel) : M unit :=
  if noUtxoMeta k then panic else mret tt.

Definition derefLedgerObj (k : Kernel) : M unit :=
  if noLedgerObj k then panic else mret tt.

(** [k.context.UtxoMeta.GetX()] *)
Definition readMeta {A} (k : Kernel) (get : StateMeta -> A) : M A :=
  derefUtxoMeta k ;; w ← getWorld; mret (get (meta w)).

(** Modelled from the spec: the setters of [StateMeta], [UpdateX(v, batch)],
    "write new_X through the context's open WriteBatch to StateMeta"; a
    setter that returns an error has written nothing. *)
Definition putMeta (u : MetaWrite) : M goerror := fun w =>
  match StateMeta_put E u (meta w) with
  | Some e => (Done (Some e), w)
  | None => (Done None, setMeta (applyWrite u (meta w)) w)
  end.

(** [k.context.UtxoMeta.UpdateX(v, k.context.UtxoBatch)] *)
Definition UpdateMeta (k : Kernel) (u : MetaWrite) : M goerror :=
  derefUtxoMeta k ;; putMeta u.

(** Modelled from the spec: [Ledger.QueryTransaction], "query the ledger for
    that transaction; fail if absent". *)
Definition QueryTransaction (k : Kernel) (rawTxid : string) : M (error + Transaction) :=
  derefLedgerObj k ;;
  w ← getWorld;
  mret (match ledgerTxs w !! rawTxid with
        | Some tx => inr tx
        | None => inl (ExtError "transaction not found")
        end).

(** [XModel.BucketCacheDelete] *)
Definition BucketCacheDelete (k : Kernel) (bucket version : string) : M unit :=
  derefUtxoMeta k ;;
  modifyWorld (fun w => setBucketCache (bucketCache w ∖ {[ (bucket, version) ]}) w).

(** Modelled from the spec: [Ledger.UpdateBlockChainData], "request the
    ledger to persist the rewrite". *)
Definition persistRewrite (r : Rewrite) : M goerror := fun w =>
  match Ledger_UpdateBlockChainData E r with
  | Some e => (Done (Some e), w)
  | None => (Done None, setRewrites (rewrites w ++ [r]) w)
  end.

(** [k.context.LedgerObj.UpdateBlockChainData(...)] *)
Definition LedgerUpdateBlockChainData (k : Kernel) (r : Rewrite) : M goerror :=
  derefLedgerObj k ;; persistRewrite r.

(** [desc.Tx], a pointer. *)
Definition derefTx (desc : TxDesc) : M Transaction :=
  match Tx desc with
  | Some tx => mret tx
  | None => panic
  end.

(** [int64(desc.Args[name].(float64))] *)
Definition int64Arg (desc : TxDesc) (name : string) : M Z :=
  match arg desc name with
  | VNumber f => mret (int64_of_float64 f)
  | _ => panic
  end.

(** *** Genesis fields *)

Definition GetKVEngineType (data : string) : outcome (error + string) :=
  match json_object E data with
  | inl err => Done (inl err)
  | inr rootJSON =>
      match default VNil (rootJSON !! "kvengine") with
      | VNil => Done (inr "default")
      | VString s => Done (inr s)
      | _ => Panic
      end
  end.

Definition GetCryptoType (data : string) : outcome (error + string) :=
  match json_object E data with
  | inl err => Done (inl err)
  | inr rootJSON =>
      match default VNil (rootJSON !! "crypto") with
      | VNil => Done (inr (CryptoTypeDefault E))
      | VString s => Done (inr s)
      | _ => Panic
      end
  end.

Definition liftOutcome {A} (o : outcome A) : M A := fun w => (o, w).

(** [initPermissionModel]: after the parse, the loop over the [permission]
    entries only logs (every branch is a [continue]); the result is nil. *)
Definition initPermissionModel (data : string) : goerror :=
  match json_object E data with
  | inl err => Some err
  | inr _ => None
  end.

(** *** Chain lifecycle *)

Definition CreateBlockChain (k : Kernel) (name data : string) : M goerror :=
  if negb (String.eqb (bcName k) "xuper") then fail ErrPermissionDenied else
  let fullpath := filepath_Join E (datapath k) name in
  exist ← PathExists fullpath;
  if (exist : bool) then fail ErrBlockChainExist else
  err ← MkdirAll fullpath;
  match err with Some e => fail e | None =>
  let rootfile := filepath_Join E fullpath (SBlockChainConfig E) in
  err ← WriteFile rootfile data;
  match err with Some e => (RemoveAll fullpath ;; fail e) | None =>
  r ← liftOutcome (GetKVEngineType data);
  match r with inl e => fail e | inr kvEngineType =>
  r ← liftOutcome (GetCryptoType data);
  match r with inl e => fail e | inr cryptoType =>
  match NewLedger E fullpath kvEngineType cryptoType with
  | Some e => (RemoveAll fullpath ;; fail e)
  | None =>
  match GenerateRootTx E data with
  | inl e => (RemoveAll fullpath ;; fail e)
  | inr tx =>
  match FormatRootBlock E [tx] with
  | inl _ => (RemoveAll fullpath ;; fail ErrCreateBlockChain)
  | inr blockid =>
  match NewUtxoVM E name fullpath kvEngineType cryptoType with
  | Some e => (RemoveAll fullpath ;; fail e)
  | None =>
  match initPermissionModel data with
  | Some e => fail e
  | None =>
  (* the error of utxovm.Play is logged *)
  let _ := Play E blockid in ok
  end end end end end end end end end.

Definition RemoveBlockChainData (k : Kernel) (name : string) : M goerror :=
  if negb (String.eqb (bcName k) "xuper") then fail ErrPermissionDenied else
  let fullpath := datapath k +:+ "/" +:+ name in
  let trashPath := datapath k +:+ "/../trash" in
  exist ← PathExists trashPath;
  err ← (if (exist : bool) then ok else Mkdir trashPath);
  match err with Some e => fail e | None =>
  id ← Glogid;
  let randomName := name +:+ "_" +:+ id in
  Rename fullpath (trashPath +:+ "/" +:+ randomName)
  end.

(** *** Argument validators

    All are methods of the kernel and so have access to its context; they are
    computations in [M]. *)

Definition validateCreateBC (k : Kernel) (desc : TxDesc) : M (error + string * string) :=
  mret (
  if isNil (arg desc "name") then inl (Errorf "block chain name is empty") else
  if isNil (arg desc "data") then inl (Errorf "first block data is empty") else
  match arg desc "name" with
  | VString bcName =>
      match arg desc "data" with
      | VString bcData =>
          (* check data format, prevent panic *)
          match json_RootConfig E bcData with
          | Some err => inl (Errorf ("first block data error.err:" +:+ errText err))
          | None => inr (bcName, bcData)
          end
      | _ => inl (Errorf "the type of data should be string")
      end
  | _ => inl (Errorf "the type of name should be string")
  end).

(** The loop shared by the three numeric validators: each argument is
    present and a [float64]. *)
Fixpoint checkFloatArgs (miss : string) (desc : TxDesc) (argNames : list string) : goerror :=
  match argNames with
  | [] => None
  | argName :: rest =>
      if isNil (arg desc argName) then Some (Errorf (miss +:+ argName))
      else match arg desc argName with
           | VNumber _ => checkFloatArgs miss desc rest
           | v => Some (Errorf ("invalid arg type: " +:+ argName +:+ ", " +:+ typeOf v))
           end
  end.

Definition validateUpdateIrreversibleSlideWindow (k : Kernel) (desc : TxDesc) : M goerror :=
  mret (checkFloatArgs "miss argument in contact: " desc
          ["new_irreversible_slide_window"; "old_irreversible_slide_window"]).

Definition validateUpdateMaxBlockSize (k : Kernel) (desc : TxDesc) : M goerror :=
  mret (checkFloatArgs "miss argument in contact: " desc
          ["new_block_size"; "old_block_size"]).

Definition validateUpdateNewAccountResourceAmount (k : Kernel) (desc : TxDesc) : M goerror :=
  mret (checkFloatArgs "miss argument in contract: " desc
          ["new_new_account_resource_amount"; "old_new_account_resource_amount"]).

Definition validateUpdateGasPrice (k : Kernel) (desc : TxDesc) (name : string)
  : M (error + GasPrice) :=
  mret (
  if isNil (arg desc name) then inl (Errorf ("missing argument in contract: " +:+ name)) else
  match mapstructure_GasPrice E (arg desc name) with
  | inl err => inl err
  | inr result =>
      inr (mkGasPrice (CpuRate result) (MemRate result) (DiskRate result) (XfeeRate result))
  end).

Definition validateUpdateForbiddenContract (k : Kernel) (desc : TxDesc) (name : string)
  : M (error + InvokeRequest) :=
  mret (
  if isNil (arg desc name) then inl (Errorf ("miss argument in contract: " +:+ name)) else
  match mapstructure_InvokeRequest E (arg desc name) with
  | inl err => inl err
  | inr result =>
      match InvokeRequestFromJSON2Pb E [result] with
      | (_, Some transErr) => inl transErr
      | (p :: _, None) => inr p
      | ([], None) => inl (Errorf "validateForbiddenContract failed")
      end
  end).

(** [mapstructure.Decode] over the elements, stopping at the first failure. *)
Fixpoint decodeInvokeRequests (args : list Value) : option (list JInvokeRequest) :=
  match args with
  | [] => Some []
  | a :: rest =>
      match mapstructure_InvokeRequest E a with
      | inl _ => None
      | inr param =>
          match decodeInvokeRequests rest with
          | None => None
          | Some params => Some (param :: params)
          end
      end
  end.

(** One round of the loop over the two argument names. *)
Definition reservedParams (desc : TxDesc) (argName : string) : error + list JInvokeRequest :=
  if isNil (arg desc argName) then inl (Errorf ("miss argument in contact: " +:+ argName)) else
  match arg desc argName with
  | VList args =>
      match decodeInvokeRequests args with
      | None => inl (Errorf "validateUpdateReservedContract transfer invokeRequest failed")
      | Some params =>
          if existsb (fun line => String.eqb (JModuleName line) "") params
          then inl (Errorf "you should maintain the format like this []")
          else inr params
      end
  | _ => inl (Errorf ("validateUpdateReservedContract argName:" +:+ argName +:+ " invalid"))
  end.

Fixpoint reservedLoop (desc : TxDesc) (name : string) (argNames : list string)
         (result : list JInvokeRequest) : error + list JInvokeRequest :=
  match argNames with
  | [] => inr result
  | argName :: rest =>
      match reservedParams desc argName with
      | inl e => inl e
      | inr params =>
          reservedLoop desc name rest (if String.eqb argName name then params else result)
      end
  end.

Definition validateUpdateReservedContract (k : Kernel) (desc : TxDesc) (name : string)
  : M (error + list InvokeRequest) :=
  mret (
  match reservedLoop desc name ["old_reserved_contracts"; "new_reserved_contracts"] [] with
  | inl e => inl e
  | inr result => inr (fst (InvokeRequestFromJSON2Pb E result))
  end).

(** The eviction loop of [validateUpdateBlockChainData]. *)
Fixpoint evictOutputs (k : Kernel) (txid : string) (i : Z) (exts : list TxOutputExt) : M unit :=
  match exts with
  | [] => mret tt
  | txOutputExt :: rest =>
      let bucket := Bucket txOutputExt in
      let version := MakeVersion E txid i in
      BucketCacheDelete k bucket version ;;
      evictOutputs k txid (i + 1) rest
  end.

Definition validateUpdateBlockChainData (k : Kernel) (desc : TxDesc) : M goerror :=
  if isNil (arg desc "txid") || isNil (arg desc "publicKey") || isNil (arg desc "sign")
  then fail (Errorf "miss argument in contact: txid, publicKey, sign") else
  match arg desc "txid" with
  | VString txid =>
  match arg desc "publicKey" with
  | VString publicKey =>
  match CreateCryptoClientFromJSONPublicKey E publicKey with
  | inl err => fail err
  | inr xcc =>
  match GetEcdsaPublicKeyFromJsonStr xcc publicKey with
  | inl err => fail err
  | inr ecdsaKey =>
  let addr := ModifyBlockAddr (kernelConfig k) in
  let isMatch := fst (VerifyAddressUsingPublicKey xcc addr ecdsaKey) in
  if negb isMatch then fail (Errorf "address and public key not match") else
  match arg desc "sign" with
  | VString sign =>
  match hex_DecodeString E sign with
  | inl _ => fail (Errorf "invalide arg type: sign byte")
  | inr bytesign =>
  match hex_DecodeString E txid with
  | inl _ => fail (Errorf ("validate updateBlockChainData bad txid:" +:+ txid))
  | inr rawTxid =>
  r ← QueryTransaction k rawTxid;
  match r with
  | inl _ => fail (Errorf "Modified tx not exist")
  | inr tx =>
  (* update the cache synchronously and clear it *)
  evictOutputs k (Txid tx) 0 (TxOutputsExt tx) ;;
  let tx' := mkTransaction (Txid tx) "" [] (FromAddrs tx) (TxOutputs tx) in
  match MakeTxDigestHash E tx' with
  | inl err => fail err
  | inr digestHash =>
  let '(valid, err) := VerifyECDSA xcc ecdsaKey bytesign digestHash in
  if bool_decide (err ≠ None) || negb valid
  then (* "verifySignatures failed" is logged *) mret err
  else ok
  end end end end
  | _ => fail (Errorf "invalid arg type: sign")
  end end end
  | _ => fail (Errorf "invalid arg type: publicKey")
  end
  | _ => fail (Errorf "invalid arg type: txid")
  end.

(** *** Handlers *)

Definition whiteListed (k : Kernel) (tx : Transaction) : bool :=
  FromAddrInList tx (NewChainWhiteList (kernelConfig k)).

Definition runCreateBlockChain (k : Kernel) (desc : TxDesc) : M goerror :=
  r ← validateCreateBC k desc;
  match r with
  | inl err => fail err
  | inr (bcName', bcData) =>
  if negb (String.eqb (bcName k) "xuper") then fail ErrPermissionDenied else
  tx ← derefTx desc;
  if negb (whiteListed k tx) && negb (DisableCreateChainWhiteList (kernelConfig k))
  then fail ErrAddrNotInWhiteList else
  derefLedgerObj k ;;
  w ← getWorld;
  let nofee := noFee w in
  let investment := GetAmountByAddress tx bcName' in
  let minNewChainAmount := big_SetString E (MinNewChainAmount (kernelConfig k)) in
  if negb nofee && (investment <? minNewChainAmount) then fail ErrNoEnoughUTXO else
  err ← CreateBlockChain k bcName' bcData;
  match err with
  | Some ErrBlockChainExist => ok
  | Some e => fail e
  | None =>
      match register k with
      | Some reg => callRegisterBlockChain reg bcName'
      | None => ok
      end
  end
  end.

(** The gates of StopBlockChain that precede the request to the register. *)
Definition validStopName (desc : TxDesc) : option string :=
  match arg desc "name" with
  | VString bcName' => if String.eqb bcName' "" then None else Some bcName'
  | _ => None
  end.

Definition runStopBlockChain (k : Kernel) (desc : TxDesc) : M goerror :=
  if negb (EnableStopChain (kernelConfig k)) then fail ErrPermissionDenied else
  if isNil (arg desc "name") then fail ErrInvalidChainName else
  match validStopName desc with
  | None => fail ErrInvalidChainName
  | Some bcName' =>
  if String.eqb bcName' "xuper" then fail ErrPermissionDenied else
  tx ← derefTx desc;
  if negb (whiteListed k tx) && negb (DisableCreateChainWhiteList (kernelConfig k))
  then fail ErrAddrNotInWhiteList else
  match register k with
  | None => panic
  | Some reg =>
      err ← callUnloadBlockChain reg bcName';
      match err with
      | Some _ => (* the error is not returned, only a message is printed *) ok
      | None => ok
      end
  end
  end.

Definition rollbackStopBlockChain (k : Kernel) (desc : TxDesc) : M goerror :=
  if negb (EnableStopChain (kernelConfig k)) then fail ErrPermissionDenied else
  if isNil (arg desc "name") then fail ErrInvalidChainName else
  match validStopName desc with
  | None => fail ErrInvalidChainName
  | Some _ => ok
  end.

Definition rollbackCreateBlockChain (k : Kernel) (desc : TxDesc) : M goerror :=
  r ← validateCreateBC k desc;
  match r with
  | inl err => fail err
  | inr (bcName', _) =>
  let fullpath := datapath k +:+ "/" +:+ bcName' in
  exist ← PathExists fullpath;
  if negb exist then ok (* no need to rollback *) else
  err ← RemoveBlockChainData k bcName';
  match err with
  | Some e => fail e
  | None =>
      match register k with
      | Some reg => callUnloadBlockChain reg bcName'
      | None => ok
      end
  end
  end.

Definition runUpdateMaxBlockSize (k : Kernel) (desc : TxDesc) : M goerror :=
  if noLedgerObj k
  then fail (Errorf "failed to update block size, because no ledger object in context") else
  vErr ← validateUpdateMaxBlockSize k desc;
  match vErr with
  | Some e => fail e
  | None =>
  newBlockSize ← int64Arg desc "new_block_size";
  oldBlockSize ← int64Arg desc "old_block_size";
  curMaxBlockSize ← readMeta k GetMaxBlockSize;
  if negb (oldBlockSize =? curMaxBlockSize)
  then fail (Errorf ("unexpected old block size, got " +:+ pretty oldBlockSize
                     +:+ ", expected: " +:+ pretty curMaxBlockSize)) else
  UpdateMeta k (WMaxBlockSize newBlockSize)
  end.

Definition runUpdateIrreversibleSlideWindow (k : Kernel) (desc : TxDesc) : M goerror :=
  if noLedgerObj k
  then fail (Errorf "failed to update irreversible slide window, because no ledger object in context") else
  vErr ← validateUpdateIrreversibleSlideWindow k desc;
  match vErr with
  | Some e => fail e
  | None =>
  newIrreversibleSlideWindow ← int64Arg desc "new_irreversible_slide_window";
  oldIrreversibleSlideWindow ← int64Arg desc "old_irreversible_slide_window";
  curIrreversibleSlideWindow ← readMeta k GetIrreversibleSlideWindow;
  if negb (oldIrreversibleSlideWindow =? curIrreversibleSlideWindow)
  then fail (Errorf ("unexpected old block size, got " +:+ pretty oldIrreversibleSlideWindow
                     +:+ ", expected: " +:+ pretty curIrreversibleSlideWindow)) else
  UpdateMeta k (WIrreversibleSlideWindow newIrreversibleSlideWindow)
  end.

Definition rollbackUpdateIrreversibleSlideWindow (k : Kernel) (desc : TxDesc) : M goerror :=
  if noLedgerObj k
  then fail (Errorf "failed to update block size, becuase no ledger object in context") else
  vErr ← validateUpdateIrreversibleSlideWindow k desc;
  match vErr with
  | Some e => fail e
  | None =>
  oldIrreversibleSlideWindow ← int64Arg desc "old_irreversible_slide_window";
  UpdateMeta k (WIrreversibleSlideWindow oldIrreversibleSlideWindow)
  end.

Definition runUpdateNewAccountResourceAmount (k : Kernel) (desc : TxDesc) : M goerror :=
  if noLedgerObj k
  then fail (Errorf "failed to update newAccountResourceAmount, because no ledger object in context") else
  vErr ← validateUpdateNewAccountResourceAmount k desc;
  match vErr with
  | Some e => fail e
  | None =>
  newNewAccountResourceAmount ← int64Arg desc "new_new_account_resource_amount";
  oldNewAccountResourceAmount ← int64Arg desc "old_new_account_resource_amount";
  curNewAccountResourceAmount ← readMeta k GetNewAccountResourceAmount;
  (* on a mismatch the error value is built and dropped: no return *)
  let _ := if negb (oldNewAccountResourceAmount =? curNewAccountResourceAmount)
           then Some (Errorf ("unexpected old newAccountResourceAmount, got "
                              +:+ pretty oldNewAccountResourceAmount
                              +:+ ", expected: " +:+ pretty curNewAccountResourceAmount))
           else None in
  UpdateMeta k (WNewAccountResourceAmount newNewAccountResourceAmount)
  end.

Definition rollbackUpdateMaxBlockSize (k : Kernel) (desc : TxDesc) : M goerror :=
  if noLedgerObj k
  then fail (Errorf "failed to update block size, because no ledger object in context") else
  vErr ← validateUpdateMaxBlockSize k desc;
  match vErr with
  | Some e => fail e
  | None =>
  oldBlockSize ← int64Arg desc "old_block_size";
  UpdateMeta k (WMaxBlockSize oldBlockSize)
  end.

Definition rollbackUpdateNewAccountResourceAmount (k : Kernel) (desc : TxDesc) : M goerror :=
  if noLedgerObj k
  then fail (Errorf "failed to update newAccountResourceAmount, because no ledger object in context") else
  vErr ← validateUpdateNewAccountResourceAmount k desc;
  match vErr with
  | Some e => fail e
  | None =>
  oldNewAccountResourceAmount ← int64Arg desc "old_new_account_resource_amount";
  UpdateMeta k (WNewAccountResourceAmount oldNewAccountResourceAmount)
  end.

(** [for key, value := range old { if v, ok := orig[key]; !ok ||
    !reflect.DeepEqual(value, v) {...} }]: true when some entry of [old] is
    missing from [orig] or differs there. *)
Definition argsDiffer (old orig : gmap string bytes) : bool :=
  existsb (fun kv => negb (bool_decide (orig !! fst kv = Some (snd kv))))
          (map_to_list old).

(** The first test of the comparison: names and number of arguments. *)
Definition headDiffer (a b : InvokeRequest) : bool :=
  negb (String.eqb (ModuleName a) (ModuleName b))
  || negb (String.eqb (ContractName a) (ContractName b))
  || negb (String.eqb (MethodName a) (MethodName b))
  || negb (Nat.eqb (size (Args a)) (size (Args b))).

Definition runUpdateForbiddenContract (k : Kernel) (desc : TxDesc) : M goerror :=
  if noLedgerObj k
  then fail (Errorf "failed to update forbidden contract, because no ledger object in context") else
  r ← validateUpdateForbiddenContract k desc "old_forbidden_contract";
  match r with
  | inl err => fail err
  | inr oldParams =>
  originalForbiddenContract ← readMeta k GetForbiddenContract;
  if headDiffer originalForbiddenContract oldParams
  then fail (Errorf "old_forbidden_contract conf doesn't match current node forbidden_contract conf") else
  if argsDiffer (Args oldParams) (Args originalForbiddenContract)
  then fail (Errorf "old_forbidden_contract args doesn't match current node forbidden_contract args") else
  r ← validateUpdateForbiddenContract k desc "new_forbidden_contract";
  match r with
  | inl err => fail err
  | inr params => UpdateMeta k (WForbiddenContract params)
  end
  end.

Definition rollbackUpdateForbiddenContract (k : Kernel) (desc : TxDesc) : M goerror :=
  if noLedgerObj k
  then fail (Errorf "failed to update forbidden contract, because no ledger object in context") else
  r ← validateUpdateForbiddenContract k desc "old_forbidden_contract";
  match r with
  | inl err => fail err
  | inr params => UpdateMeta k (WForbiddenContract params)
  end.

(** The inner loop of [runUpdateReservedContract]: [vold], at index [i], is
    compared with the element of the live list whose index [j] equals [i]. *)
Fixpoint reservedInner (i : nat) (vold : InvokeRequest) (j : nat)
         (orig : list InvokeRequest) : goerror :=
  match orig with
  | [] => None
  | vorig :: rest =>
      if negb (Nat.eqb i j) then reservedInner i vold (S j) rest
      else if headDiffer vold vorig
      then Some (Errorf "old_reserved_contracts values are not equal to the current node")
      else if argsDiffer (Args vold) (Args vorig)
      then Some (Errorf "old_reserved_contracts values are not equal to the current node")
      else reservedInner i vold (S j) rest
  end.

(** The outer loop, over the old list. *)
Fixpoint reservedOuter (i : nat) (oldParams orig : list InvokeRequest) : goerror :=
  match oldParams with
  | [] => None
  | vold :: rest =>
      match reservedInner i vold 0 orig with
      | Some e => Some e
      | None => reservedOuter (S i) rest orig
      end
  end.

Definition runUpdateReservedContract (k : Kernel) (desc : TxDesc) : M goerror :=
  if noLedgerObj k
  then fail (Errorf "failed to update reservered contract, because no ledger object in context") else
  r ← validateUpdateReservedContract k desc "old_reserved_contracts";
  match r with
  | inl err => fail err
  | inr oldParams =>
  originalReservedContracts ← readMeta k GetReservedContracts;
  match reservedOuter 0 oldParams originalReservedContracts with
  | Some e => fail e
  | None =>
  r ← validateUpdateReservedContract k desc "new_reserved_contracts";
  match r with
  | inl err => fail err
  | inr params => UpdateMeta k (WReservedContracts params)
  end
  end
  end.

Definition gasPriceDiffer (a b : GasPrice) : bool :=
  negb (CpuRate a =? CpuRate b) || negb (MemRate a =? MemRate b)
  || negb (DiskRate a =? DiskRate b) || negb (XfeeRate a =? XfeeRate b).

Definition runUpdateGasPrice (k : Kernel) (desc : TxDesc) : M goerror :=
  if noUtxoMeta k
  then fail (Errorf "failed to update gas price, because no utxoMeta in context") else
  r ← validateUpdateGasPrice k desc "old_gas_price";
  match r with
  | inl vErr => fail vErr
  | inr oldParams =>
  originalGasPrice ← readMeta k GetGasPrice;
  if gasPriceDiffer oldParams originalGasPrice
  then fail (Errorf "old_gas_price values are not equal to the current node") else
  r ← validateUpdateGasPrice k desc "new_gas_price";
  match r with
  | inl err => fail err
  | inr newGasPrice => UpdateMeta k (WGasPrice newGasPrice)
  end
  end.

Definition rollbackUpdateGasPrice (k : Kernel) (desc : TxDesc) : M goerror :=
  if noUtxoMeta k
  then fail (Errorf "failed to rollback gas price, because no utxoMeta in context") else
  r ← validateUpdateGasPrice k desc "old_gas_price";
  match r with
  | inl vErr => fail vErr
  | inr oldParams => UpdateMeta k (WGasPrice oldParams)
  end.

Definition rollbackUpdateReservedContract (k : Kernel) (desc : TxDesc) : M goerror :=
  if noLedgerObj k
  then fail (Errorf "failed to update reservered contract, because no ledger object in context") else
  r ← validateUpdateReservedContract k desc "old_reserved_contracts";
  match r with
  | inl err => fail err
  | inr params => UpdateMeta k (WReservedContracts params)
  end.

(** [s, _ := desc.Args[name].(string)] *)
Definition stringArg (desc : TxDesc) (name : string) : string :=
  match arg desc name with
  | VString s => s
  | _ => ""
  end.

Definition blockHeight (k : Kernel) : M Z :=
  match context k with
  | Some c => match Block c with Some h => mret h | None => panic end
  | None => panic
  end.

Definition runUpdateBlockChainData (k : Kernel) (desc : TxDesc) : M goerror :=
  if noLedgerObj k
  then fail (Errorf "failed to update blockchain data, because no ledger object in context") else
  err ← validateUpdateBlockChainData k desc;
  match err with
  | Some e => fail e
  | None =>
  let txid := stringArg desc "txid" in
  let publicKey := stringArg desc "publicKey" in
  let sign := stringArg desc "sign" in
  tx ← derefTx desc;
  height ← blockHeight k;
  LedgerUpdateBlockChainData k
    (mkRewrite txid (hex_EncodeToString E (Txid tx)) publicKey sign height)
  end.

Definition rollbackUpdateBlockChainData (k : Kernel) (desc : TxDesc) : M goerror :=
  if noLedgerObj k
  then fail (Errorf "failed to modify blockchain data, because no ledger object in context") else
  ok.

(** *** Method tables and the dispatcher *)

Definition runKernelFuncTable : list (string * KernelMethodFunc) :=
  [ ("CreateBlockChain", runCreateBlockChain);
    ("UpdateMaxBlockSize", runUpdateMaxBlockSize);
    ("UpdateReservedContract", runUpdateReservedContract);
    ("UpdateForbiddenContract", runUpdateForbiddenContract);
    ("UpdateBlockChainData", runUpdateBlockChainData);
    ("UpdateNewAccountResourceAmount", runUpdateNewAccountResourceAmount);
    ("UpdateIrreversibleSlideWindow", runUpdateIrreversibleSlideWindow);
    ("UpdateGasPrice", runUpdateGasPrice);
    ("StopBlockChain", runStopBlockChain) ].

Definition rollbackKernelFuncTable : list (string * KernelMethodFunc) :=
  [ ("CreateBlockChain", rollbackCreateBlockChain);
    ("UpdateMaxBlockSize", rollbackUpdateMaxBlockSize);
    ("UpdateReservedContract", rollbackUpdateReservedContract);
    ("UpdateForbiddenContract", rollbackUpdateForbiddenContract);
    ("UpdateBlockChainData", rollbackUpdateBlockChainData);
    ("UpdateNewAccountResourceAmount", rollbackUpdateNewAccountResourceAmount);
    ("UpdateIrreversibleSlideWindow", rollbackUpdateIrreversibleSlideWindow);
    ("UpdateGasPrice", rollbackUpdateGasPrice);
    ("StopBlockChain", rollbackStopBlockChain) ].

Definition runKernelFuncMap : gmap string KernelMethodFunc :=
  list_to_map runKernelFuncTable.

Definition rollbackKernelFuncMap : gmap string KernelMethodFunc :=
  list_to_map rollbackKernelFuncTable.

Definition rootKernelMap : gmap string bool :=
  list_to_map [ ("CreateBlockChain", true); ("StopBlockChain", true) ].

Definition kernelRun (k : Kernel) (method : KernelMethodFunc) (desc : TxDesc) : M goerror :=
  method k desc.

(** [Run] and [Rollback] hold the kernel's mutex from entry to exit; calls
    are sequential here. *)
Definition Run (k : Kernel) (desc : TxDesc) : M goerror :=
  match runKernelFuncMap !! Method desc with
  | None => fail ErrMethodNotImplemented
  | Some method =>
      if default false (rootKernelMap !! Method desc) && negb (String.eqb (bcName k) "xuper")
      then fail ErrPermissionDenied
      else kernelRun k method desc
  end.

Definition Rollback (k : Kernel) (desc : TxDesc) : M goerror :=
  match rollbackKernelFuncMap !! Method desc with
  | None => fail ErrMethodNotImplemented
  | Some method =>
      if default false (rootKernelMap !! Method desc) && negb (String.eqb (bcName k) "xuper")
      then fail ErrPermissionDenied
      else kernelRun k method desc
  end.

End KernelMethods.

(** ** A concrete environment

    Simple collaborators on which the kernel can be run: a crypto client
    whose only valid signature of a digest is the digest itself, a state meta
    and a ledger that accept every write, a file system that never fails, and
    a JSON decoder that knows the empty object. *)

Module Demo.

Definition strField (m : gmap string Value) (key : string) : string :=
  match m !! key with
  | Some (VString s) => s
  | _ => ""
  end.

Definition intField (m : gmap string Value) (key : string) : Z :=
  match m !! key with
  | Some (VNumber f) => int64_of_float64 f
  | _ => 0
  end.

Definition strOnly (v : Value) : option string :=
  match v with
  | VString s => Some s
  | _ => None
  end.

Definition decodeInvokeRequest (v : Value) : error + JInvokeRequest :=
  match v with
  | VObject m =>
      inr (mkJInvokeRequest (strField m "module_name") (strField m "contract_name")
             (strField m "method_name")
             (match m !! "args" with
              | Some (VObject a) => omap strOnly a
              | _ => ∅
              end))
  | _ => inl (ExtError "expected a map")
  end.

Definition decodeGasPrice (v : Value) : error + GasPrice :=
  match v with
  | VObject m =>
      inr (mkGasPrice (intField m "cpu_rate") (intField m "mem_rate")
             (intField m "disk_rate") (intField m "xfee_rate"))
  | _ => inl (ExtError "expected a map")
  end.

Definition json2pb (l : list JInvokeRequest) : list InvokeRequest * goerror :=
  (map (fun r => mkInvokeRequest (JModuleName r) (JContractName r) (JMethodName r)
                   (Some <$> JArgs r)) l, None).

Definition crypto : CryptoClient :=
  mkCryptoClient
    (fun _ => inr (mkEcdsaPublicKey "P-256" 1 2))
    (fun addr _ => (String.eqb addr "modifier", None))
    (fun _ sig digest => (String.eqb sig digest, None)).

Definition rootTx : Transaction := mkTransaction "root" "" [] [] [].

Definition ext : Externals :=
  {| mapstructure_InvokeRequest := decodeInvokeRequest;
     mapstructure_GasPrice := decodeGasPrice;
     InvokeRequestFromJSON2Pb := json2pb;
     json_RootConfig := fun s => if String.eqb s "{}" then None
                                 else Some (ExtError "unexpected end of JSON input");
     json_object := fun s => if String.eqb s "{}" then inr ∅
                             else inl (ExtError "unexpected end of JSON input");
     CreateCryptoClientFromJSONPublicKey := fun _ => inr crypto;
     hex_DecodeString := fun s => inr s;
     hex_EncodeToString := fun s => s;
     MakeVersion := fun txid i => txid +:+ "_" +:+ pretty i;
     MakeTxDigestHash := fun tx => inr ("digest:" +:+ Txid tx);
     Ledger_UpdateBlockChainData := fun _ => None;
     StateMeta_put := fun _ _ => None;
     big_SetString := fun s => if String.eqb s "100" then 100 else 0;
     filepath_Join := fun a b => a +:+ "/" +:+ b;
     SBlockChainConfig := "xuper.json";
     CryptoTypeDefault := "default";
     os_MkdirAll := fun _ => None;
     os_Mkdir := fun _ => None;
     ioutil_WriteFile := fun _ _ => None;
     os_Rename := fun _ _ => None;
     NewLedger := fun _ _ _ => None;
     GenerateRootTx := fun _ => inr rootTx;
     FormatRootBlock := fun _ => inr "rootblock";
     NewUtxoVM := fun _ _ _ _ => None;
     Play := fun _ => None |}.

(** A register on which no chain can be unloaded. *)
Definition stubbornRegister : ChainRegister :=
  mkChainRegister (fun _ => None) (fun _ => Some (ExtError "chain not found")).

Definition config : KernelConfig :=
  mkKernelConfig {[ "alice" := true ]} false "100" true "modifier".

Definition ctx : TxContext := mkTxContext true true (Some 7).

Definition kernel : Kernel :=
  mkKernel "data/blockchain" (Some stubbornRegister) (Some ctx) "xuper" config.

(** The same kernel on a side chain. *)
Definition sideKernel : Kernel :=
  mkKernel "data/blockchain" (Some stubbornRegister) (Some ctx) "side1" config.

Definition noRequest : InvokeRequest := mkInvokeRequest "" "" "" ∅.

Definition reserved1 : InvokeRequest :=
  mkInvokeRequest "wasm" "identity" "verify" ∅.

Definition meta0 : StateMeta :=
  mkStateMeta 1048576 10 2 (mkGasPrice 1 1 1 1) noRequest [reserved1].

Definition storedTx : Transaction :=
  mkTransaction "cafe" "memo" [mkTxOutputExt "bucket1" "key1" "value1"] ["bob"] [].

Definition world0 : World :=
  mkWorld meta0 false {[ "cafe" := storedTx ]} []
          {[ ("bucket1", "cafe_0") ]} ∅ [] 0.

Definition carrier : Transaction :=
  mkTransaction "beef" "" [] ["alice"] [("side1", 100)].

Definition num (z : Z) : Value := VNumber (float64_of_Z z).

Definition desc (method : string) (args : list (string * Value)) : TxDesc :=
  mkTxDesc method (list_to_map args) (Some carrier).

(** The world in which the directory of side1 exists. *)
Definition world1 : World := setPaths {[ "data/blockchain/side1" ]} world0.


(** Descriptors used below. *)

Definition updateAccountResource : TxDesc :=
  desc "UpdateNewAccountResourceAmount"
       [("old_new_account_resource_amount", num 1);
        ("new_new_account_resource_amount", num 3)].

Definition updateBlockSize (old new : Z) : TxDesc :=
  desc "UpdateMaxBlockSize" [("old_block_size", num old); ("new_block_size", num new)].

Definition stopSide1 : TxDesc := desc "StopBlockChain" [("name", VString "side1")].

Definition createSide1 : TxDesc :=
  desc "CreateBlockChain" [("name", VString "side1"); ("data", VString "{}")].

Definition moduleOnly (name : string) : Value :=
  VObject {[ "module_name" := VString name ]}.

(** The old list is empty although one contract is reserved. *)
Definition reservedFromEmpty : TxDesc :=
  desc "UpdateReservedContract"
       [("old_reserved_contracts", VList []);
        ("new_reserved_contracts", VList [moduleOnly "xkernel"])].

Definition rewrite (sign : string) : TxDesc :=
  desc "UpdateBlockChainData"
       [("txid", VString "cafe"); ("publicKey", VString "{}"); ("sign", VString sign)].

End Demo.

(** ** Notions used in the statements *)


(** The value [old_X] carried by a parameter-update descriptor whose old
    argument passes the method's validator, as the request that writes it to
    the state meta; [None] for any other descriptor. *)
Definition oldValue (E : Externals) (k : Kernel) (desc : TxDesc) (w : World)
  : option MetaWrite :=
  if String.eqb (Method desc) "UpdateMaxBlockSize" then
    match fst (validateUpdateMaxBlockSize k desc w), arg desc "old_block_size" with
    | Done None, VNumber f => Some (WMaxBlockSize (int64_of_float64 f))
    | _, _ => None
    end
  else if String.eqb (Method desc) "UpdateIrreversibleSlideWindow" then
    match fst (validateUpdateIrreversibleSlideWindow k desc w),
          arg desc "old_irreversible_slide_window" with
    | Done None, VNumber f => Some (WIrreversibleSlideWindow (int64_of_float64 f))
    | _, _ => None
    end
  else if String.eqb (Method desc) "UpdateNewAccountResourceAmount" then
    match fst (validateUpdateNewAccountResourceAmount k desc w),
          arg desc "old_new_account_resource_amount" with
    | Done None, VNumber f => Some (WNewAccountResourceAmount (int64_of_float64 f))
    | _, _ => None
    end
  else if String.eqb (Method desc) "UpdateGasPrice" then
    match fst (validateUpdateGasPrice E k desc "old_gas_price" w) with
    | Done (inr old) => Some (WGasPrice old)
    | _ => None
    end
  else if String.eqb (Method desc) "UpdateForbiddenContract" then
    match fst (validateUpdateForbiddenContract E k desc "old_forbidden_contract" w) with
    | Done (inr old) => Some (WForbiddenContract old)
    | _ => None
    end
  else if String.eqb (Method desc) "UpdateReservedContract" then
    match fst (validateUpdateReservedContract E k desc "old_reserved_contracts" w) with
    | Done (inr old) => Some (WReservedContracts old)
    | _ => None
    end
  else None.

(** Two requests address the same parameter. *)
Definition sameParameter (u v : MetaWrite) : bool :=
  match u, v with
  | WMaxBlockSize _, WMaxBlockSize _
  | WIrreversibleSlideWindow _, WIrreversibleSlideWindow _
  | WNewAccountResourceAmount _, WNewAccountResourceAmount _
  | WGasPrice _, WGasPrice _
  | WForbiddenContract _, WForbiddenContract _
  | WReservedContracts _, WReservedContracts _ => true
  | _, _ => false
  end.

(** ** Further methods of the kernel *)

(** [GetVATWhiteList] *)
Definition GetVATWhiteList (k : Kernel) : gmap string bool :=
  list_to_map
    [ ("UpdateMaxBlockSize", true);
      ("UpdateReservedContract", true);
      ("UpdateForbiddenContract", true);
      ("UpdateNewAccountResourceAmount", true);
      ("UpdateIrreversibleSlideWindow", true);
      ("UpdateGasPrice", true);
      ("UpdateBlockChainData", true) ].

(** The value [new_X] carried by a parameter-update descriptor whose new
    argument passes the method's validator; [None] for any other
    descriptor. *)
Definition newValue (E : Externals) (k : Kernel) (desc : TxDesc) (w : World)
  : option MetaWrite :=
  if String.eqb (Method desc) "UpdateMaxBlockSize" then
    match fst (validateUpdateMaxBlockSize k desc w), arg desc "new_block_size" with
    | Done None, VNumber f => Some (WMaxBlockSize (int64_of_float64 f))
    | _, _ => None
    end
  else if String.eqb (Method desc) "UpdateIrreversibleSlideWindow" then
    match fst (validateUpdateIrreversibleSlideWindow k desc w),
          arg desc "new_irreversible_slide_window" with
    | Done None, VNumber f => Some (WIrreversibleSlideWindow (int64_of_float64 f))
    | _, _ => None
    end
  else if String.eqb (Method desc) "UpdateNewAccountResourceAmount" then
    match fst (validateUpdateNewAccountResourceAmount k desc w),
          arg desc "new_new_account_resource_amount" with
    | Done None, VNumber f => Some (WNewAccountResourceAmount (int64_of_float64 f))
    | _, _ => None
    end
  else if String.eqb (Method desc) "UpdateGasPrice" then
    match fst (validateUpdateGasPrice E k desc "new_gas_price" w) with
    | Done (inr new) => Some (WGasPrice new)
    | _ => None
    end
  else if String.eqb (Method desc) "UpdateForbiddenContract" then
    match fst (validateUpdateForbiddenContract E k desc "new_forbidden_contract" w) with
    | Done (inr new) => Some (WForbiddenContract new)
    | _ => None
    end
  else if String.eqb (Method desc) "UpdateReservedContract" then
    match fst (validateUpdateReservedContract E k desc "new_reserved_contracts" w) with
    | Done (inr new) => Some (WReservedContracts new)
    | _ => None
    end
  else None.

(** The parameter-update method that issues a request to the state meta. *)
Definition methodOf (u : MetaWrite) : string :=
  match u with
  | WMaxBlockSize _ => "UpdateMaxBlockSize"
  | WIrreversibleSlideWindow _ => "UpdateIrreversibleSlideWindow"
  | WNewAccountResourceAmount _ => "UpdateNewAccountResourceAmount"
  | WGasPrice _ => "UpdateGasPrice"
  | WForbiddenContract _ => "UpdateForbiddenContract"
  | WReservedContracts _ => "UpdateReservedContract"
  end.

Definition parameterUpdates : list string :=
  [ "UpdateMaxBlockSize"; "UpdateIrreversibleSlideWindow";
    "UpdateNewAccountResourceAmount"; "UpdateGasPrice";
    "UpdateForbiddenContract"; "UpdateReservedContract" ].

(** ** Further concrete cases *)

Module Cases.

(** The demo kernel under a configuration whose [ModifyBlockAddr] is not the
    address of the demo key. *)
Definition strangerKernel : Kernel :=
  mkKernel "data/blockchain" (Some Demo.stubbornRegister) (Some Demo.ctx) "xuper"
           (mkKernelConfig {[ "alice" := true ]} false "100" true "someone-else").

Definition gasPrice (c m d x : Z) : Value :=
  VObject (list_to_map [ ("cpu_rate", Demo.num c); ("mem_rate", Demo.num m);
                         ("disk_rate", Demo.num d); ("xfee_rate", Demo.num x) ]).

Definition updateGasPrice : TxDesc :=
  Demo.desc "UpdateGasPrice"
            [ ("old_gas_price", gasPrice 1 1 1 1); ("new_gas_price", gasPrice 2 2 2 2) ].


End Cases.

(** ** Identity authentication between peers

    [handleGetAuthentication] of the p2p server and [GetAuthRequest] of the
    p2p base package: the request one peer builds and the check the other
    runs on it. *)

Module P2P.

(** [pb.IdentityAuth] *)
Record IdentityAuth := mkIdentityAuth
  { Sign : string; Pubkey : string; Addr : string; PeerID : string;
    Timestamp : string }.

(** [XchainAddrInfo] *)
Record XchainAddrInfo := mkXchainAddrInfo
  { InfoAddr : string; InfoPubkey : string; InfoPrikey : string;
    InfoPeerID : string }.

Inductive MessageType := GET_AUTHENTICATION | GET_AUTHENTICATION_RES.
Inductive ErrorType := SUCCESS | GET_AUTHENTICATION_ERROR.

(** The arguments from which [NewXuperMessage] builds a message. *)
Record XuperMessage := mkXuperMessage
  { Version : string; Bcname : string; Logid : string; MsgType : MessageType;
    MsgInfo : bytes; ErrType : ErrorType }.

(** The stream of the connection: the peer at its other end, the
    authentication flag, and the lists handed to [setReceivedAddr]. *)
Record Stream := mkStream
  { peerPretty : string; isAuth : bool; receivedAddr : list (list string) }.

Record ecdsaPrivateKey := mkEcdsaPrivateKey { D : Z }.

(** The crypto client with the two methods that signing adds. *)
Record SigningClient := mkSigningClient
  { verifier : CryptoClient;
    GetEcdsaPrivateKeyFromJsonStr : string -> error + ecdsaPrivateKey;
    SignECDSA : ecdsaPrivateKey -> string -> error + string }.

Record AuthExternals := mkAuthExternals
  { proto_Unmarshal : bytes -> error + list IdentityAuth;
    CreateCryptoClient : string -> error + SigningClient;
    strconv_ParseInt : string -> error + Z;
    strconv_FormatInt : Z -> string;
    UsingSha256 : string -> string;
    json_Marshal : list string -> error + string;
    NewXuperMessage :
      string -> string -> string -> MessageType -> bytes -> ErrorType ->
      option XuperMessage * goerror;
    XuperMsgVersion2 : string;
    DefautltAuthTimeout : float64 }.

(** Signed 64-bit wrap-around. *)
Definition wrap64 (z : Z) : Z := (z + 2 ^ 63) mod 2 ^ 64 - 2 ^ 63.

(** [float64(x)] for an [int64]: exact up to 53 bits, beyond that rounded
    to the nearest 53-bit mantissa, ties to even. *)
Definition float64_of_int64 (z : Z) : float64 :=
  let a := Z.abs z in
  let n := if a =? 0 then 0 else Z.log2 a + 1 in
  if n <=? 53 then Float64 z 0
  else
    let e := n - 53 in
    let q := a / 2 ^ e in
    let r := a mod 2 ^ e in
    let half := 2 ^ (e - 1) in
    let q' := if (half <? r) || ((r =? half) && Z.odd q) then q + 1 else q in
    Float64 (Z.sgn z * q') e.

(** [math.Abs] *)
Definition float64_abs (f : float64) : float64 := Float64 (Z.abs (mant f)) (expo f).

(** [a >= b] on finite floats, brought to the smaller exponent. *)
Definition float64_ge (a b : float64) : bool :=
  if expo b <=? expo a
  then mant b <=? mant a * 2 ^ (expo a - expo b)
  else mant b * 2 ^ (expo b - expo a) <=? mant a.

Section Authentication.
Context (X : AuthExternals).

(** [math.Abs(float64(tsNow-tsPast)) >= config.DefautltAuthTimeout] *)
Definition expired (tsNow tsPast : Z) : bool :=
  float64_ge (float64_abs (float64_of_int64 (wrap64 (tsNow - tsPast))))
             (DefautltAuthTimeout X).

Definition errorHandleGetAuthenMsg (logid : string) : option XuperMessage :=
  fst (NewXuperMessage X (XuperMsgVersion2 X) "" logid GET_AUTHENTICATION_RES
         None GET_AUTHENTICATION_ERROR).

(** The loop over the entries; [clock i] is what [time.Now().Unix()]
    answers in round [i]. *)
Fixpoint checkAuths (s : Stream) (clock : nat -> Z) (i : nat)
         (auths : list IdentityAuth) (addrs : list string) : error + list string :=
  match auths with
  | [] => inr addrs
  | v :: rest =>
      if negb (String.eqb (peerPretty s) (PeerID v))
      then inl (Errorf "handleGetAuthentication peerID inconsistency") else
      match CreateCryptoClient X (Pubkey v) with
      | inl _ => inl (Errorf "handleGetAuthentication Create crypto client error")
      | inr cryptoClient =>
      match GetEcdsaPublicKeyFromJsonStr (verifier cryptoClient) (Pubkey v) with
      | inl err => inl err
      | inr publicKey =>
      if negb (fst (VerifyAddressUsingPublicKey (verifier cryptoClient) (Addr v) publicKey))
      then inl (Errorf "handleGetAuthentication address and public key not match") else
      let tsNow := clock i in
      match strconv_ParseInt X (Timestamp v) with
      | inl _ => inl (Errorf "handleGetAuthentication timestamp fmt error")
      | inr tsPast =>
      if expired tsNow tsPast
      then inl (Errorf "handleGetAuthentication timestamp expired") else
      let data := UsingSha256 X (PeerID v +:+ Addr v +:+ Timestamp v) in
      if negb (fst (VerifyECDSA (verifier cryptoClient) publicKey (Sign v) data))
      then inl (Errorf "handleGetAuthentication verify sign error") else
      checkAuths s clock (S i) rest (addrs ++ [Addr v])
      end end end
  end.

(** [handleGetAuthentication]: the response, the error, and the stream
    afterwards.  The stream is the value stored in the context under
    "Stream"; asserting it when it is absent panics. *)
Definition handleGetAuthentication (stream : option Stream) (clock : nat -> Z)
           (msg : XuperMessage)
  : outcome (option XuperMessage * goerror * option Stream) :=
  let logid := Logid msg in
  let errRes := errorHandleGetAuthenMsg logid in
  match proto_Unmarshal X (MsgInfo msg) with
  | inl _ => Done (errRes, Some (Errorf "unmarshal msg error"), stream)
  | inr auths =>
      match stream with
      | None => Panic
      | Some s =>
          match checkAuths s clock 0 auths [] with
          | inl err => Done (errRes, Some err, Some s)
          | inr addrs =>
              match json_Marshal X addrs with
              | inl _ =>
                  Done (errRes,
                        Some (Errorf "handleGetAuthentication json marshal error"),
                        Some s)
              | inr resBuf =>
                  let s' := mkStream (peerPretty s) true (receivedAddr s ++ [addrs]) in
                  let '(res, err) :=
                    NewXuperMessage X (XuperMsgVersion2 X) "" logid
                      GET_AUTHENTICATION_RES (Some resBuf) SUCCESS in
                  Done (res, err, Some s')
              end
          end
      end
  end.

(** [GetAuthRequest]; [now] is what [time.Now().Unix()] answers. *)
Definition GetAuthRequest (now : Z) (v : XchainAddrInfo) : error + IdentityAuth :=
  match CreateCryptoClient X (InfoPubkey v) with
  | inl _ => inl (Errorf "GetAuthRequest: Create crypto client error")
  | inr cryptoClient =>
      match GetEcdsaPrivateKeyFromJsonStr cryptoClient (InfoPrikey v) with
      | inl err => inl err
      | inr privateKey =>
          let ts := strconv_FormatInt X now in
          let digestHash := UsingSha256 X (InfoPeerID v +:+ InfoAddr v +:+ ts) in
          match SignECDSA cryptoClient privateKey digestHash with
          | inl err => inl err
          | inr sign =>
              inr (mkIdentityAuth sign (InfoPubkey v) (InfoAddr v) (InfoPeerID v) ts)
          end
      end
  end.

End Authentication.

(** What one entry must satisfy for the loop to go past it at time
    [tsNow]. *)
Definition verified (X : AuthExternals) (s : Stream) (tsNow : Z) (v : IdentityAuth) : Prop :=
  peerPretty s = PeerID v /\
  exists cryptoClient publicKey tsPast,
    CreateCryptoClient X (Pubkey v) = inr cryptoClient /\
    GetEcdsaPublicKeyFromJsonStr (verifier cryptoClient) (Pubkey v) = inr publicKey /\
    fst (VerifyAddressUsingPublicKey (verifier cryptoClient) (Addr v) publicKey) = true /\
    strconv_ParseInt X (Timestamp v) = inr tsPast /\
    expired X tsNow tsPast = false /\
    fst (VerifyECDSA (verifier cryptoClient) publicKey (Sign v)
           (UsingSha256 X (PeerID v +:+ Addr v +:+ Timestamp v))) = true.

End P2P.

(** A concrete environment for the authentication: a client that signs a
    digest by prefixing it, one known address, timestamps in decimal for the
    one instant used, a timeout of thirty seconds. *)
Module AuthDemo.
Import P2P.

Definition client : SigningClient :=
  mkSigningClient
    (mkCryptoClient
       (fun _ => inr (mkEcdsaPublicKey "P-256" 1 2))
       (fun addr _ => (String.eqb addr "alice-address", None))
       (fun _ sig digest => (String.eqb sig ("sig:" +:+ digest), None)))
    (fun _ => inr (mkEcdsaPrivateKey 5))
    (fun _ digest => inr ("sig:" +:+ digest)).

Definition alice : XchainAddrInfo :=
  mkXchainAddrInfo "alice-address" "{pub}" "{pri}" "QmAlice".

Definition aliceAuth : IdentityAuth :=
  mkIdentityAuth "sig:sha256(QmAlicealice-address1000)" "{pub}" "alice-address"
                 "QmAlice" "1000".

Definition ext : AuthExternals :=
  {| proto_Unmarshal := fun b =>
       match b with
       | Some "" => inr []
       | Some "alice" => inr [aliceAuth]
       | _ => inl (ExtError "proto: cannot parse")
       end;
     CreateCryptoClient := fun _ => inr client;
     strconv_ParseInt := fun s =>
       if String.eqb s "1000" then inr 1000 else inl (ExtError "invalid syntax");
     strconv_FormatInt := fun z => if z =? 1000 then "1000" else "0";
     UsingSha256 := fun s => "sha256(" +:+ s +:+ ")";
     json_Marshal := fun l => inr (String.concat "," l);
     NewXuperMessage := fun v b l t d e => (Some (mkXuperMessage v b l t d e), None);
     XuperMsgVersion2 := "version2";
     DefautltAuthTimeout := Float64 30 0 |}.

Definition stream : Stream := mkStream "QmAlice" false [].

Definition request (wire : string) : XuperMessage :=
  mkXuperMessage "version2" "" "log-1" GET_AUTHENTICATION (Some wire) SUCCESS.

End AuthDemo.

(** ** Utilities of the p2p base package *)

(** [GenerateUniqueRandList]; [Perm] is the method of the generator that
    the function seeds from the clock.  The nil slice is the empty list. *)
Definition GenerateUniqueRandList (Perm : Z -> list Z) (size max : Z) : list Z :=
  if (max <=? 0) || (size <=? 0) then []
  else
    let size := if max <? size then max else size in
    take (Z.to_nat size) (Perm max).

(** The net key of a node and its PEM form, kept in files. *)
Module NetKey.

(** [crypto.PrivKey], an interface: the key as an opaque value. *)
Record PrivKey := mkPrivKey { material : string }.

(** [pem.Block] *)
Record PemBlock := mkPemBlock { BlockType : string; BlockBytes : string }.

Record KeyExternals := mkKeyExternals
  { GenerateKeyPairWithReader : error + PrivKey;
    MarshalPrivateKey : PrivKey -> error + string;
    UnmarshalPrivateKey : string -> error + PrivKey;
    UnmarshalRsaPrivateKey : string -> error + PrivKey;
    Raw : PrivKey -> error + string;
    base64_EncodeToString : string -> string;
    base64_DecodeString : string -> error + string;
    pem_Decode : string -> option PemBlock;
    pem_EncodeToMemory : PemBlock -> string;
    IDFromPrivateKey : PrivKey -> error + string;
    Pretty : string -> string;
    DefaultNetKeyPath : string;
    Join : string -> string -> string;
    os_MkdirAll : string -> goerror;
    ioutil_WriteFile : string -> string -> goerror }.

(** The files and their contents. *)
Abbreviation Files := (gmap string string).

Section KeyFiles.
Context (K : KeyExternals).

(** [ioutil.WriteFile]: on success the file holds the data and nothing
    else. *)
Definition WriteFile (name data : string) (fs : Files) : goerror * Files :=
  match ioutil_WriteFile K name data with
  | Some e => (Some e, fs)
  | None => (None, <[name := data]> fs)
  end.

(** [ioutil.ReadFile] *)
Definition ReadFile (name : string) (fs : Files) : error + string :=
  match fs !! name with
  | Some data => inr data
  | None => inl (ExtError "no such file or directory")
  end.

(** [if len(path) == 0 { path = config.DefaultNetKeyPath }] *)
Definition orDefault (path : string) : string :=
  if Nat.eqb (String.length path) 0 then DefaultNetKeyPath K else path.

Definition GenerateKeyPairWithPath (path : string) (fs : Files) : goerror * Files :=
  match GenerateKeyPairWithReader K with
  | inl err => (Some err, fs)
  | inr priv =>
      let path := orDefault path in
      match MarshalPrivateKey K priv with
      | inl err => (Some err, fs)
      | inr privData =>
          match os_MkdirAll K path with
          | Some err => (Some err, fs)
          | None =>
              WriteFile (Join K path "net_private.key")
                        (base64_EncodeToString K privData) fs
          end
      end
  end.

Definition GetKeyPairFromPath (path : string) (fs : Files) : error + PrivKey :=
  let path := orDefault path in
  match ReadFile (Join K path "net_private.key") fs with
  | inl err => inl err
  | inr data =>
      match base64_DecodeString K data with
      | inl err => inl err
      | inr privData => UnmarshalPrivateKey K privData
      end
  end.

Definition GetPeerIDFromPath (keypath : string) (fs : Files) : error + string :=
  match GetKeyPairFromPath keypath fs with
  | inl err => inl err
  | inr pk =>
      match IDFromPrivateKey K pk with
      | inl err => inl err
      | inr pid => inr (Pretty K pid)
      end
  end.

(** [keyBlock, _ := pem.Decode(keyFile)] gives nil for a file without a PEM
    block, and [keyBlock.Bytes] then panics. *)
Definition GetPemKeyPairFromPath (path : string) (fs : Files) : outcome (error + PrivKey) :=
  let path := orDefault path in
  match ReadFile (Join K path "private.key") fs with
  | inl err => Done (inl err)
  | inr keyFile =>
      match pem_Decode K keyFile with
      | None => Panic
      | Some keyBlock => Done (UnmarshalRsaPrivateKey K (BlockBytes keyBlock))
      end
  end.

Definition GeneratePemKeyFromNetKey (path : string) (fs : Files) : goerror * Files :=
  match GetKeyPairFromPath path fs with
  | inl err => (Some err, fs)
  | inr privKey =>
      match Raw K privKey with
      | inl err => (Some err, fs)
      | inr bytes =>
          let block := mkPemBlock "RSA PRIVATE KEY" bytes in
          WriteFile (Join K path "private.key") (pem_EncodeToMemory K block) fs
      end
  end.


End KeyFiles.

End NetKey.

(** A concrete environment for the key files. *)
Module NetKeyDemo.
Import NetKey.

Definition ext : KeyExternals :=
  {| GenerateKeyPairWithReader := inr (mkPrivKey "rsa-2048");
     MarshalPrivateKey := fun k => inr ("der:" +:+ material k);
     UnmarshalPrivateKey := fun d =>
       if String.prefix "der:" d
       then inr (mkPrivKey (String.substring 4 (String.length d - 4) d))
       else inl (ExtError "malformed key");
     UnmarshalRsaPrivateKey := fun d => inr (mkPrivKey d);
     Raw := fun k => inr (material k);
     base64_EncodeToString := fun d => "b64:" +:+ d;
     base64_DecodeString := fun s =>
       if String.prefix "b64:" s
       then inr (String.substring 4 (String.length s - 4) s)
       else inl (ExtError "illegal base64 data");
     pem_Decode := fun s =>
       if String.prefix "pem:" s
       then Some (mkPemBlock "RSA PRIVATE KEY"
                    (String.substring 4 (String.length s - 4) s))
       else None;
     pem_EncodeToMemory := fun b => "pem:" +:+ BlockBytes b;
     IDFromPrivateKey := fun k => inr ("id:" +:+ material k);
     Pretty := fun i => i;
     DefaultNetKeyPath := "./data/netkeys/";
     Join := fun a b => if Nat.eqb (String.length a) 0 then b else a +:+ "/" +:+ b;
     os_MkdirAll := fun _ => None;
     ioutil_WriteFile := fun _ _ => None |}.

End NetKeyDemo.

(** ** Properties *)

(** *** Unfolding computations *)

Lemma bind_Done {A B} (m : M A) (f : A -> M B) (w w' : World) (a : A) :
  m w = (Done a, w') -> (m ≫= f) w = f a w'.
Proof. intros H. unfold mbind, M_bind. now rewrite H. Qed.

Lemma bind_Panic {A B} (m : M A) (f : A -> M B) (w w' : World) :
  m w = (Panic, w') -> (m ≫= f) w = (Panic, w').
Proof. intros H. unfold mbind, M_bind. now rewrite H. Qed.

Lemma eqb_xuper_false (s : string) : s ≠ "xuper" -> String.eqb s "xuper" = false.
Proof. intros H. now apply String.eqb_neq. Qed.

(** Unfold the operations of [M]. *)
Ltac munfold :=
  unfold fail, ok, panic, getWorld, modifyWorld, liftOutcome in *;
  unfold mbind, M_bind, mret, M_ret in *.

(** *** The method tables *)

Section Tables.
Context (E : Externals).

Lemma run_table_names :
  (runKernelFuncTable E).*1 = (rollbackKernelFuncTable E).*1.
Proof. reflexivity. Qed.

Lemma root_lookup (m : string) :
  m = "CreateBlockChain" \/ m = "StopBlockChain" ->
  default false (rootKernelMap !! m) = true /\
  is_Some (runKernelFuncMap E !! m) /\ is_Some (rollbackKernelFuncMap E !! m).
Proof. intros [-> | ->]; (split; [reflexivity | split; eexists; reflexivity]). Qed.

End Tables.

(** C8.  The run table and the rollback table register the same set of
    method names: their key sets are equal, so a method has a forward handler
    exactly when it has a rollback handler. *)
Theorem run_rollback_same_methods (E : Externals) :
  dom (runKernelFuncMap E) = dom (rollbackKernelFuncMap E) /\
  forall m : string,
    is_Some (runKernelFuncMap E !! m) <-> is_Some (rollbackKernelFuncMap E !! m).
Proof.
  assert (Hdom : dom (runKernelFuncMap E) = dom (rollbackKernelFuncMap E)).
  { unfold runKernelFuncMap, rollbackKernelFuncMap.
    rewrite !dom_list_to_map_L. now rewrite run_table_names. }
  split; [exact Hdom |].
  intros m. rewrite <- !elem_of_dom. now rewrite Hdom.
Qed.

(** C7.  [Run] (and, symmetrically, [Rollback]) returns
    [ErrMethodNotImplemented] when the method name is absent from its table,
    and [ErrPermissionDenied] when the method is CreateBlockChain or
    StopBlockChain and the kernel's chain is not "xuper"; in both cases the
    world is returned as it was received: no handler has run. *)
Theorem dispatch_refusals (E : Externals) (k : Kernel) (desc : TxDesc) (w : World) :
  (runKernelFuncMap E !! Method desc = None ->
   Run E k desc w = (Done (Some ErrMethodNotImplemented), w)) /\
  (rollbackKernelFuncMap E !! Method desc = None ->
   Rollback E k desc w = (Done (Some ErrMethodNotImplemented), w)) /\
  (Method desc = "CreateBlockChain" \/ Method desc = "StopBlockChain" ->
   bcName k ≠ "xuper" ->
   Run E k desc w = (Done (Some ErrPermissionDenied), w) /\
   Rollback E k desc w = (Done (Some ErrPermissionDenied), w)).
Proof.
  split; [| split].
  - intros H. unfold Run. now rewrite H.
  - intros H. unfold Rollback. now rewrite H.
  - intros Hroot Hside.
    destruct (root_lookup E _ Hroot) as (Hr & [f Hf] & [g Hg]).
    unfold Run, Rollback. rewrite Hf, Hg, Hr, (eqb_xuper_false _ Hside).
    split; reflexivity.
Qed.

Lemma dispatch_refusals_witness :
  Run Demo.ext Demo.kernel (Demo.desc "Mint" []) Demo.world0
    = (Done (Some ErrMethodNotImplemented), Demo.world0) /\
  Rollback Demo.ext Demo.kernel (Demo.desc "Mint" []) Demo.world0
    = (Done (Some ErrMethodNotImplemented), Demo.world0) /\
  Run Demo.ext Demo.sideKernel
      (Demo.desc "StopBlockChain" [("name", VString "side2")]) Demo.world0
    = (Done (Some ErrPermissionDenied), Demo.world0) /\
  Rollback Demo.ext Demo.sideKernel
      (Demo.desc "StopBlockChain" [("name", VString "side2")]) Demo.world0
    = (Done (Some ErrPermissionDenied), Demo.world0).
Proof.
  split; [| split].
  - apply (dispatch_refusals Demo.ext Demo.kernel (Demo.desc "Mint" []) Demo.world0).
    reflexivity.
  - apply (dispatch_refusals Demo.ext Demo.kernel (Demo.desc "Mint" []) Demo.world0).
    reflexivity.
  - apply (dispatch_refusals Demo.ext Demo.sideKernel
             (Demo.desc "StopBlockChain" [("name", VString "side2")]) Demo.world0).
    + right. reflexivity.
    + discriminate.
Defined.

(** *** Rollback of a creation that never took effect *)

(** C10.  For a CreateBlockChain descriptor that passes validation, when the
    directory [<datapath>/<name>] does not exist, [rollbackCreateBlockChain]
    returns nil and leaves the world as it was: nothing is moved to the
    trash directory and the register receives no request.  Invoking it again
    therefore does the same. *)
Theorem rollbackCreateBlockChain_absent
    (E : Externals) (k : Kernel) (desc : TxDesc) (w : World) (name data : string) :
  validateCreateBC E k desc w = (Done (inr (name, data)), w) ->
  (datapath k +:+ "/" +:+ name) ∉ paths w ->
  rollbackCreateBlockChain E k desc w = (Done None, w) /\
  (rollbackCreateBlockChain E k desc ≫= (fun _ => rollbackCreateBlockChain E k desc)) w
    = (Done None, w).
Proof.
  intros Hv Habsent.
  assert (Hone : rollbackCreateBlockChain E k desc w = (Done None, w)).
  { unfold rollbackCreateBlockChain.
    rewrite (bind_Done _ _ _ _ _ Hv).
    unfold mbind, M_bind, PathExists.
    rewrite bool_decide_eq_false_2 by exact Habsent.
    reflexivity. }
  split; [exact Hone |].
  now rewrite (bind_Done _ _ _ _ _ Hone).
Qed.

Lemma rollbackCreateBlockChain_absent_witness :
  rollbackCreateBlockChain Demo.ext Demo.kernel
    Demo.createSide1 Demo.world0 = (Done None, Demo.world0).
Proof.
  apply (rollbackCreateBlockChain_absent Demo.ext Demo.kernel
           Demo.createSide1 Demo.world0 "side1" "{}").
  - reflexivity.
  - apply not_elem_of_empty.
Defined.

(** *** The signature check of the historical rewrite *)

Lemma evictOutputs_Done (E : Externals) (k : Kernel) (txid : string)
      (exts : list TxOutputExt) :
  noUtxoMeta k = false ->
  forall (i : Z) (w : World), fst (evictOutputs E k txid i exts w) = Done tt.
Proof.
  intros Hk. induction exts as [| x rest IH]; intros i w; cbn [evictOutputs].
  - reflexivity.
  - unfold BucketCacheDelete, derefUtxoMeta. rewrite Hk. munfold. apply IH.
Qed.

(** What the validator of the historical rewrite answers once every earlier
    step has passed: the error component of [VerifyECDSA], whatever its
    boolean says. *)
Lemma validateUpdateBlockChainData_verdict
    (E : Externals) (k : Kernel) (desc : TxDesc) (w : World)
    (txid publicKey sign bytesign rawTxid digestHash : string)
    (xcc : CryptoClient) (ecdsaKey : ecdsaPublicKey) (tx : Transaction) :
  arg desc "txid" = VString txid ->
  arg desc "publicKey" = VString publicKey ->
  arg desc "sign" = VString sign ->
  CreateCryptoClientFromJSONPublicKey E publicKey = inr xcc ->
  GetEcdsaPublicKeyFromJsonStr xcc publicKey = inr ecdsaKey ->
  fst (VerifyAddressUsingPublicKey xcc (ModifyBlockAddr (kernelConfig k)) ecdsaKey) = true ->
  hex_DecodeString E sign = inr bytesign ->
  hex_DecodeString E txid = inr rawTxid ->
  noLedgerObj k = false ->
  noUtxoMeta k = false ->
  ledgerTxs w !! rawTxid = Some tx ->
  MakeTxDigestHash E (mkTransaction (Txid tx) "" [] (FromAddrs tx) (TxOutputs tx))
    = inr digestHash ->
  fst (validateUpdateBlockChainData E k desc w)
    = Done (snd (VerifyECDSA xcc ecdsaKey bytesign digestHash)).
Proof.
  intros Ht Hp Hs Hc Hk Ha Hhs Hht Hl Hu Htx Hd.
  unfold validateUpdateBlockChainData, QueryTransaction, derefLedgerObj.
  rewrite Ht, Hp, Hs, Hc, Hk, Ha, Hhs, Hht, Hl. cbn [isNil orb negb].
  munfold. rewrite Htx.
  pose proof (evictOutputs_Done E k (Txid tx) (TxOutputsExt tx) Hu 0 w) as Hev.
  destruct (evictOutputs E k (Txid tx) 0 (TxOutputsExt tx) w) as [o w1].
  cbn [fst] in Hev. subst o. rewrite Hd.
  destruct (VerifyECDSA xcc ecdsaKey bytesign digestHash) as [valid [err |]];
    cbn [snd]; [reflexivity |].
  destruct valid; reflexivity.
Qed.


(** *** Cleaning up after a failed creation *)



(** C5.  [CreateBlockChain] with a genesis text from which the [kvengine]
    field cannot be read: the directory has been made and the genesis file
    written, the call returns the decoder's error, and the directory is still
    there. *)
Theorem createBlockChain_leaves_directory :
  ("data/blockchain/side1" ∉ paths Demo.world0) /\
  fst (CreateBlockChain Demo.ext Demo.kernel "side1" "{" Demo.world0)
    = Done (Some (ExtError "unexpected end of JSON input")) /\
  ("data/blockchain/side1"
     ∈ paths (snd (CreateBlockChain Demo.ext Demo.kernel "side1" "{" Demo.world0))).
Proof.
  split; [apply not_elem_of_empty |].
  split; [vm_compute; reflexivity |].
  apply (bool_decide_unpack _). vm_compute. exact I.
Qed.

(** *** Which errors reach the caller *)

Lemma validStopName_arg (desc : TxDesc) (name : string) :
  validStopName desc = Some name ->
  arg desc "name" = VString name /\ name ≠ "".
Proof.
  unfold validStopName. destruct (arg desc "name"); try discriminate.
  destruct (String.eqb s "") eqn:Hs; [discriminate |].
  intros [= ->]. split; [reflexivity |]. now apply String.eqb_neq.
Qed.

Lemma whitelist_gate (k : Kernel) (tx : Transaction) :
  whiteListed k tx = true \/ DisableCreateChainWhiteList (kernelConfig k) = true ->
  negb (whiteListed k tx) && negb (DisableCreateChainWhiteList (kernelConfig k)) = false.
Proof. intros [-> | ->]; [reflexivity | apply andb_false_r]. Qed.

(** The claim as the specification words it fails on the demo kernel: every
    gate of StopBlockChain passes, the register refuses to unload side1, and
    [runStopBlockChain] returns nil, not the register's error. *)
Lemma stop_swallows_unload_error :
  EnableStopChain (kernelConfig Demo.kernel) = true /\
  validStopName Demo.stopSide1 = Some "side1" /\
  whiteListed Demo.kernel Demo.carrier = true /\
  register Demo.kernel = Some Demo.stubbornRegister /\
  UnloadBlockChain Demo.stubbornRegister "side1" = Some (ExtError "chain not found") /\
  fst (runStopBlockChain Demo.kernel Demo.stopSide1 Demo.world0) = Done None /\
  fst (Run Demo.ext Demo.kernel Demo.stopSide1 Demo.world0)
    ≠ Done (Some (ExtError "chain not found")).
Proof. repeat split; try (vm_compute; reflexivity). vm_compute. discriminate. Qed.

(** C3, amended.  For a StopBlockChain descriptor that passes all gates,
    [runStopBlockChain] asks the register to unload the chain and returns
    nil whatever the register answers.  For a CreateBlockChain descriptor that
    passes all gates, [runCreateBlockChain] returns nil when
    [CreateBlockChain] returns [ErrBlockChainExist], returns every other error
    of [CreateBlockChain] as it is, and after a successful creation returns
    what the register's [RegisterBlockChain] returns. *)
Theorem stop_returns_nil_create_propagates
    (E : Externals) (k : Kernel) (desc : TxDesc) (w : World) :
  (forall (name : string) (tx : Transaction) (reg : ChainRegister),
     EnableStopChain (kernelConfig k) = true ->
     validStopName desc = Some name ->
     name ≠ "xuper" ->
     Tx desc = Some tx ->
     whiteListed k tx = true \/ DisableCreateChainWhiteList (kernelConfig k) = true ->
     register k = Some reg ->
     runStopBlockChain k desc w
       = (Done None, setRegisterLog (registerLog w ++ [CallUnloadBlockChain name]) w)) /\
  (forall (name data : string) (tx : Transaction) (r : goerror) (w' : World),
     validateCreateBC E k desc w = (Done (inr (name, data)), w) ->
     bcName k = "xuper" ->
     Tx desc = Some tx ->
     whiteListed k tx = true \/ DisableCreateChainWhiteList (kernelConfig k) = true ->
     noLedgerObj k = false ->
     noFee w = true \/
       big_SetString E (MinNewChainAmount (kernelConfig k)) <= GetAmountByAddress tx name ->
     CreateBlockChain E k name data w = (Done r, w') ->
     runCreateBlockChain E k desc w =
       match r with
       | Some ErrBlockChainExist => (Done None, w')
       | Some e => (Done (Some e), w')
       | None =>
           match register k with
           | Some reg => callRegisterBlockChain reg name w'
           | None => (Done None, w')
           end
       end).
Proof.
  split.
  - intros name tx reg Hen Hname Hx Htx Hwl Hreg.
    destruct (validStopName_arg _ _ Hname) as [Harg _].
    unfold runStopBlockChain.
    rewrite Hen, Harg, Hname. cbn [negb isNil].
    rewrite (eqb_xuper_false _ Hx).
    unfold derefTx. rewrite Htx.
    unfold mbind, M_bind, mret, M_ret.
    rewrite (whitelist_gate _ _ Hwl), Hreg.
    unfold callUnloadBlockChain, ok, mret, M_ret.
    destruct (UnloadBlockChain reg name); reflexivity.
  - intros name data tx r w' Hv Hbc Htx Hwl Hctx Hfee Hcreate.
    unfold runCreateBlockChain.
    rewrite (bind_Done _ _ _ _ _ Hv).
    rewrite Hbc. cbn [String.eqb Ascii.eqb Bool.eqb negb].
    unfold derefTx. rewrite Htx.
    unfold derefLedgerObj. rewrite Hctx.
    unfold mbind, M_bind, mret, M_ret, getWorld.
    rewrite (whitelist_gate _ _ Hwl).
    assert (Hf : negb (noFee w)
                 && (GetAmountByAddress tx name
                       <? big_SetString E (MinNewChainAmount (kernelConfig k))) = false).
    { destruct Hfee as [-> | Hle]; [reflexivity |].
      apply andb_false_iff. right. now apply Z.ltb_ge. }
    rewrite Hf, Hcreate.
    destruct r as [e |]; [destruct e |]; try reflexivity.
    destruct (register k); reflexivity.
Qed.

Lemma stop_returns_nil_create_propagates_witness :
  runStopBlockChain Demo.kernel Demo.stopSide1 Demo.world0
    = (Done None,
       setRegisterLog (registerLog Demo.world0 ++ [CallUnloadBlockChain "side1"])
                      Demo.world0) /\
  runCreateBlockChain Demo.ext Demo.kernel Demo.createSide1 Demo.world1
    = (Done None, Demo.world1).
Proof.
  split.
  - apply (proj1 (stop_returns_nil_create_propagates
                    Demo.ext Demo.kernel Demo.stopSide1 Demo.world0)
                 "side1" Demo.carrier Demo.stubbornRegister).
    + reflexivity.
    + reflexivity.
    + discriminate.
    + reflexivity.
    + left. reflexivity.
    + reflexivity.
  - apply (proj2 (stop_returns_nil_create_propagates
                    Demo.ext Demo.kernel Demo.createSide1 Demo.world1)
                 "side1" "{}" Demo.carrier (Some ErrBlockChainExist) Demo.world1).
    + reflexivity.
    + reflexivity.
    + reflexivity.
    + left. reflexivity.
    + reflexivity.
    + right. vm_compute. discriminate.
    + vm_compute. reflexivity.
Defined.

(** *** What the validators touch *)



Section Eviction.
Context (E : Externals) (k : Kernel).





End Eviction.

Section BlockChainDataValidator.
Context (E : Externals) (k : Kernel) (desc : TxDesc).



End BlockChainDataValidator.




(** *** Run followed by Rollback *)

Lemma applyWrite_overwrite (u v : MetaWrite) (m : StateMeta) :
  sameParameter u v = true -> applyWrite u (applyWrite v m) = applyWrite u m.
Proof. destruct u, v; cbn; intros H; try discriminate; reflexivity. Qed.

Section ParameterUpdates.
Context (E : Externals).

Lemma parameter_update_lookups :
  runKernelFuncMap E !! "UpdateMaxBlockSize" = Some (runUpdateMaxBlockSize E) /\
  runKernelFuncMap E !! "UpdateIrreversibleSlideWindow"
    = Some (runUpdateIrreversibleSlideWindow E) /\
  runKernelFuncMap E !! "UpdateNewAccountResourceAmount"
    = Some (runUpdateNewAccountResourceAmount E) /\
  runKernelFuncMap E !! "UpdateGasPrice" = Some (runUpdateGasPrice E) /\
  runKernelFuncMap E !! "UpdateForbiddenContract" = Some (runUpdateForbiddenContract E) /\
  runKernelFuncMap E !! "UpdateReservedContract" = Some (runUpdateReservedContract E) /\
  rollbackKernelFuncMap E !! "UpdateMaxBlockSize" = Some (rollbackUpdateMaxBlockSize E) /\
  rollbackKernelFuncMap E !! "UpdateIrreversibleSlideWindow"
    = Some (rollbackUpdateIrreversibleSlideWindow E) /\
  rollbackKernelFuncMap E !! "UpdateNewAccountResourceAmount"
    = Some (rollbackUpdateNewAccountResourceAmount E) /\
  rollbackKernelFuncMap E !! "UpdateGasPrice" = Some (rollbackUpdateGasPrice E) /\
  rollbackKernelFuncMap E !! "UpdateForbiddenContract"
    = Some (rollbackUpdateForbiddenContract E) /\
  rollbackKernelFuncMap E !! "UpdateReservedContract"
    = Some (rollbackUpdateReservedContract E).
Proof. repeat split; reflexivity. Qed.

End ParameterUpdates.

Lemma parameter_update_not_root :
  rootKernelMap !! "UpdateMaxBlockSize" = None /\
  rootKernelMap !! "UpdateIrreversibleSlideWindow" = None /\
  rootKernelMap !! "UpdateNewAccountResourceAmount" = None /\
  rootKernelMap !! "UpdateGasPrice" = None /\
  rootKernelMap !! "UpdateForbiddenContract" = None /\
  rootKernelMap !! "UpdateReservedContract" = None.
Proof. repeat split; reflexivity. Qed.

(** Resolve the dispatch of [Run] or [Rollback] in [H] for the
    parameter-update method named by [Hm]. *)
Ltac dispatch E Hm H :=
  unfold Run, Rollback in H; rewrite Hm in H;
  destruct (parameter_update_lookups E)
    as (L1 & L2 & L3 & L4 & L5 & L6 & L7 & L8 & L9 & L10 & L11 & L12);
  destruct parameter_update_not_root as (N1 & N2 & N3 & N4 & N5 & N6);
  rewrite ?L1, ?L2, ?L3, ?L4, ?L5, ?L6, ?L7, ?L8, ?L9, ?L10, ?L11, ?L12,
          ?N1, ?N2, ?N3, ?N4, ?N5, ?N6 in H;
  cbn [default andb] in H; unfold kernelRun in H;
  clear L1 L2 L3 L4 L5 L6 L7 L8 L9 L10 L11 L12 N1 N2 N3 N4 N5 N6.

(** Split on the method that [oldValue] recognises. *)
Ltac by_method H :=
  unfold oldValue in H;
  repeat match type of H with
         | (if String.eqb ?a ?b then _ else _) = _ =>
             let Hm := fresh "Hm" in
             destruct (String.eqb a b) eqn:Hm;
             [apply String.eqb_eq in Hm | clear Hm]
         end;
  try discriminate.

Ltac handlers :=
  unfold runUpdateMaxBlockSize, runUpdateIrreversibleSlideWindow,
         runUpdateNewAccountResourceAmount, runUpdateGasPrice,
         runUpdateForbiddenContract, runUpdateReservedContract,
         rollbackUpdateMaxBlockSize, rollbackUpdateIrreversibleSlideWindow,
         rollbackUpdateNewAccountResourceAmount, rollbackUpdateGasPrice,
         rollbackUpdateForbiddenContract, rollbackUpdateReservedContract,
         validateUpdateMaxBlockSize, validateUpdateIrreversibleSlideWindow,
         validateUpdateNewAccountResourceAmount, validateUpdateGasPrice,
         validateUpdateForbiddenContract, validateUpdateReservedContract,
         int64Arg, readMeta, UpdateMeta, putMeta, derefUtxoMeta in *;
  munfold; cbn [fst snd] in *.

Section RunRollback.
Context (E : Externals) (k : Kernel) (desc : TxDesc).

Lemma rollback_writes_old (w w1 w2 : World) (u : MetaWrite) :
  oldValue E k desc w = Some u ->
  Rollback E k desc w1 = (Done None, w2) ->
  meta w2 = applyWrite u (meta w1).
Proof.
  intros Hold Hrb.
  by_method Hold; dispatch E Hm Hrb; handlers;
    repeat (case_match; simplify_eq); reflexivity.
Qed.

Lemma run_changes_one_parameter (w w1 : World) (u : MetaWrite) (r1 : outcome goerror) :
  oldValue E k desc w = Some u ->
  Run E k desc w = (r1, w1) ->
  meta w1 = meta w \/
  exists v, sameParameter u v = true /\ meta w1 = applyWrite v (meta w).
Proof.
  intros Hold Hrun.
  by_method Hold; dispatch E Hm Hrun; handlers;
    repeat (case_match; simplify_eq);
    solve [ left; reflexivity | right; eexists; split; [| reflexivity]; reflexivity ].
Qed.

End RunRollback.

(** C9.  For a parameter-update descriptor whose old value passes validation
    and equals the live value of the state meta, running [Run] and then
    [Rollback] leaves the state meta as it was before [Run], the state meta
    accepting the write of [old_X]; and the rollback compares nothing:
    when it returns nil it has written [old_X] over whatever the state meta
    held. *)
Theorem run_then_rollback_restores
    (E : Externals) (k : Kernel) (desc : TxDesc) (w w1 w2 : World)
    (u : MetaWrite) (r1 r2 : outcome goerror) :
  oldValue E k desc w = Some u ->
  applyWrite u (meta w) = meta w ->
  Run E k desc w = (r1, w1) ->
  StateMeta_put E u (meta w1) = None ->
  Rollback E k desc w1 = (r2, w2) ->
  meta w2 = meta w /\ (r2 = Done None -> meta w2 = applyWrite u (meta w1)).
Proof.
  intros Hold Hlive Hrun Hput Hrb. split.
  - by_method Hold; dispatch E Hm Hrun; dispatch E Hm Hrb; handlers;
      repeat (case_match; simplify_eq; cbn [meta setMeta] in * );
      try reflexivity; try congruence.
    all: rewrite applyWrite_overwrite by reflexivity; exact Hlive.
  - intros ->. exact (rollback_writes_old E k desc w w1 w2 u Hold Hrb).
Qed.

Lemma run_then_rollback_restores_witness :
  GetMaxBlockSize
    (meta (snd (Run Demo.ext Demo.kernel (Demo.updateBlockSize 1048576 2097152)
                    Demo.world0))) = 2097152 /\
  meta (snd (Rollback Demo.ext Demo.kernel (Demo.updateBlockSize 1048576 2097152)
               (snd (Run Demo.ext Demo.kernel (Demo.updateBlockSize 1048576 2097152)
                         Demo.world0))))
  = meta Demo.world0.
Proof.
  split; [vm_compute; reflexivity |].
  refine (proj1 (run_then_rollback_restores Demo.ext Demo.kernel
           (Demo.updateBlockSize 1048576 2097152) Demo.world0
           (snd (Run Demo.ext Demo.kernel (Demo.updateBlockSize 1048576 2097152)
                     Demo.world0))
           (snd (Rollback Demo.ext Demo.kernel (Demo.updateBlockSize 1048576 2097152)
                   (snd (Run Demo.ext Demo.kernel
                             (Demo.updateBlockSize 1048576 2097152) Demo.world0))))
           (WMaxBlockSize 1048576) (Done None) (Done None) _ _ _ _ _)).
  - vm_compute. reflexivity.
  - vm_compute. reflexivity.
  - vm_compute. reflexivity.
  - vm_compute. reflexivity.
  - vm_compute. reflexivity.
Defined.

(** *** The old-value guard *)

Lemma argsDiffer_false (old orig : gmap string bytes) :
  argsDiffer old orig = false <-> old ⊆ orig.
Proof.
  unfold argsDiffer. rewrite map_subseteq_spec. split.
  - intros Hnone i x Hix.
    destruct (decide (orig !! i = Some x)) as [Heq | Hne]; [exact Heq |].
    exfalso. apply not_true_iff_false in Hnone. apply Hnone.
    apply existsb_exists. exists (i, x). split.
    + apply list_elem_of_In, elem_of_map_to_list, Hix.
    + cbn. now rewrite bool_decide_eq_false_2.
  - intros Hsub. apply not_true_iff_false. intros Hex.
    apply existsb_exists in Hex. destruct Hex as ([i x] & Hin & Hneg).
    apply list_elem_of_In, elem_of_map_to_list in Hin.
    cbn in Hneg. rewrite (bool_decide_eq_true_2 _ (Hsub i x Hin)) in Hneg.
    discriminate.
Qed.

(** The two tests of the handlers together decide equality of requests. *)
Lemma requests_equal (a b : InvokeRequest) :
  headDiffer a b = false /\ argsDiffer (Args a) (Args b) = false <-> a = b.
Proof.
  split.
  - intros [Hh Ha]. unfold headDiffer in Hh.
    repeat (apply orb_false_iff in Hh; destruct Hh as [Hh ?]).
    repeat match goal with
           | H : negb _ = false |- _ => apply negb_false_iff in H
           end.
    apply String.eqb_eq in Hh.
    repeat match goal with
           | H : String.eqb _ _ = true |- _ => apply String.eqb_eq in H
           | H : Nat.eqb _ _ = true |- _ => apply Nat.eqb_eq in H
           end.
    apply argsDiffer_false in Ha.
    assert (Args a = Args b) by (apply map_subseteq_size_eq; [exact Ha | lia]).
    destruct a, b; cbn in *; congruence.
  - intros ->. split.
    + unfold headDiffer. now rewrite !String.eqb_refl, Nat.eqb_refl.
    + now apply argsDiffer_false.
Qed.

Lemma gasPrice_equal (a b : GasPrice) : gasPriceDiffer a b = false <-> a = b.
Proof.
  unfold gasPriceDiffer. split.
  - intros H.
    repeat (apply orb_false_iff in H; destruct H as [H ?]).
    repeat match goal with
           | H : negb _ = false |- _ => apply negb_false_iff, Z.eqb_eq in H
           end.
    destruct a, b; cbn in *; congruence.
  - intros ->. now rewrite !Z.eqb_refl.
Qed.

(** The inner loop looks at one element of the live list only: the one at
    the index of the old element, if there is one. *)
Lemma reservedInner_None (i : nat) (vold : InvokeRequest) (orig : list InvokeRequest) :
  forall j : nat, (j <= i)%nat ->
    reservedInner i vold j orig = None <->
    (forall vorig, orig !! (i - j)%nat = Some vorig -> vold = vorig).
Proof.
  assert (Hpast : forall l j, (i < j)%nat -> reservedInner i vold j l = None).
  { induction l as [| x l IH]; intros j Hj; cbn [reservedInner]; [reflexivity |].
    destruct (Nat.eqb_spec i j) as [-> | _]; [lia |]. cbn [negb]. apply IH. lia. }
  induction orig as [| x rest IH]; intros j Hj; cbn [reservedInner].
  - split; [intros _ vorig Hl; discriminate | reflexivity].
  - destruct (Nat.eqb_spec i j) as [-> | Hne]; cbn [negb].
    + replace (j - j)%nat with 0%nat by lia. cbn [lookup list_lookup].
      destruct (headDiffer vold x) eqn:Hh.
      * split; [discriminate |]. intros Heq.
        specialize (Heq x eq_refl). apply requests_equal in Heq.
        destruct Heq as [Heq _]. congruence.
      * destruct (argsDiffer (Args vold) (Args x)) eqn:Ha.
        -- split; [discriminate |]. intros Heq.
           specialize (Heq x eq_refl). apply requests_equal in Heq.
           destruct Heq as [_ Heq]. congruence.
        -- rewrite Hpast by lia. split; [| reflexivity].
           intros _ vorig [= <-]. now apply requests_equal.
    + replace (i - j)%nat with (S (i - S j)) by lia. cbn [lookup list_lookup].
      apply IH. lia.
Qed.

(** The guard of the reserved contracts: the old list and the live list
    agree at every index that both have.  Their lengths are not compared. *)
Lemma reservedOuter_None (oldParams orig : list InvokeRequest) :
  forall i : nat,
    reservedOuter i oldParams orig = None <->
    (forall n vold vorig,
        oldParams !! n = Some vold -> orig !! (i + n)%nat = Some vorig -> vold = vorig).
Proof.
  induction oldParams as [| x rest IH]; intros i; cbn [reservedOuter].
  - split; [intros _ n vold vorig Hl; discriminate | reflexivity].
  - destruct (reservedInner i x 0 orig) eqn:Hin.
    + split; [discriminate |]. intros Hall. exfalso.
      assert (Hn : reservedInner i x 0 orig = None); [| congruence].
      apply reservedInner_None; [lia |].
      intros vorig Hl. apply (Hall 0%nat x vorig); [reflexivity |].
      now replace (i + 0)%nat with (i - 0)%nat by lia.
    + rewrite IH. split.
      * intros Hall [| n] vold vorig Ho Hl.
        -- cbn in Ho. injection Ho as <-.
           apply (proj1 (reservedInner_None i x orig 0%nat ltac:(lia)) Hin).
           now replace (i - 0)%nat with (i + 0)%nat by lia.
        -- apply (Hall n vold vorig Ho).
           now replace (S i + n)%nat with (i + S n)%nat by lia.
      * intros Hall n vold vorig Ho Hl.
        apply (Hall (S n) vold vorig Ho).
        now replace (i + S n)%nat with (S i + n)%nat by lia.
Qed.

(** With equal lengths the guard is equality of the lists. *)
Lemma reservedOuter_same_length (oldParams orig : list InvokeRequest) :
  length oldParams = length orig ->
  reservedOuter 0 oldParams orig = None <-> oldParams = orig.
Proof.
  intros Hlen. rewrite reservedOuter_None. split.
  - intros Hall. apply list_eq. intros n.
    destruct (oldParams !! n) as [a |] eqn:Ha.
    + destruct (orig !! n) as [b |] eqn:Hb.
      * f_equal. exact (Hall n a b Ha Hb).
      * apply lookup_lt_Some in Ha. apply lookup_ge_None in Hb. lia.
    + symmetry. apply lookup_ge_None. apply lookup_ge_None in Ha. lia.
  - intros -> n vold vorig Ho Hl. cbn in Hl. congruence.
Qed.

Lemma applyWrite_live (u : MetaWrite) (m : StateMeta) :
  match u with
  | WMaxBlockSize z => z = GetMaxBlockSize m
  | WIrreversibleSlideWindow z => z = GetIrreversibleSlideWindow m
  | WNewAccountResourceAmount z => z = GetNewAccountResourceAmount m
  | WGasPrice g => g = GetGasPrice m
  | WForbiddenContract r => r = GetForbiddenContract m
  | WReservedContracts l => l = GetReservedContracts m
  end <-> applyWrite u m = m.
Proof.
  destruct u, m; cbn; split; intros H; try (injection H as ->); subst; reflexivity.
Qed.



(** C2.  With 2 as the live amount of new-account resource, a descriptor
    whose old value is 1 is run to success, and the live amount becomes its
    new value 3: the mismatch is noticed and the error dropped. *)
Theorem account_resource_mismatch_is_applied :
  GetNewAccountResourceAmount (meta Demo.world0) = 2 /\
  fst (Run Demo.ext Demo.kernel Demo.updateAccountResource Demo.world0) = Done None /\
  GetNewAccountResourceAmount
    (meta (snd (Run Demo.ext Demo.kernel Demo.updateAccountResource Demo.world0))) = 3.
Proof. repeat split; vm_compute; reflexivity. Qed.

(** C4.  With one reserved contract live, a descriptor whose old list is
    empty is run to success and replaces the live list: lists of different
    lengths are compared on their common indices only. *)
Theorem reserved_length_mismatch_is_applied :
  GetReservedContracts (meta Demo.world0) = [Demo.reserved1] /\
  fst (validateUpdateReservedContract Demo.ext Demo.kernel Demo.reservedFromEmpty
         "old_reserved_contracts" Demo.world0) = Done (inr []) /\
  fst (Run Demo.ext Demo.kernel Demo.reservedFromEmpty Demo.world0) = Done None /\
  GetReservedContracts
    (meta (snd (Run Demo.ext Demo.kernel Demo.reservedFromEmpty Demo.world0)))
    = [mkInvokeRequest "xkernel" "" "" ∅].
Proof. repeat split; vm_compute; reflexivity. Qed.

(** ** Further properties of the kernel *)

(** *** The white list of verifiable administration transactions *)

(** X1.  The methods of [GetVATWhiteList] are exactly the methods of the run
    table that are not root-only, every one of them enabled; and every
    root-only method is a method of the run table. *)
Theorem vat_whitelist_is_non_root_methods (E : Externals) (k : Kernel) :
  dom (GetVATWhiteList k) = dom (runKernelFuncMap E) ∖ dom rootKernelMap /\
  dom rootKernelMap ⊆ dom (runKernelFuncMap E) /\
  forall (m : string) (b : bool), GetVATWhiteList k !! m = Some b -> b = true.
Proof.
  unfold GetVATWhiteList, runKernelFuncMap, rootKernelMap.
  rewrite !dom_list_to_map_L. cbn [fmap list_fmap runKernelFuncTable fst].
  split; [| split].
  - vm_compute. reflexivity.
  - apply (bool_decide_unpack _). vm_compute. exact I.
  - intros m b H. apply elem_of_list_to_map_2 in H.
    repeat (apply elem_of_cons in H; destruct H as [H | H]; [congruence |]).
    now apply elem_of_nil in H.
Qed.
(** *** The old-value guard, continued *)


(** Resolve the dispatch of [Run] or [Rollback] in the goal. *)
Ltac dispatch_goal E Hm :=
  unfold Run, Rollback; rewrite Hm;
  destruct (parameter_update_lookups E)
    as (L1 & L2 & L3 & L4 & L5 & L6 & L7 & L8 & L9 & L10 & L11 & L12);
  destruct parameter_update_not_root as (N1 & N2 & N3 & N4 & N5 & N6);
  rewrite ?L1, ?L2, ?L3, ?L4, ?L5, ?L6, ?L7, ?L8, ?L9, ?L10, ?L11, ?L12,
          ?N1, ?N2, ?N3, ?N4, ?N5, ?N6;
  cbn [default andb]; unfold kernelRun;
  clear L1 L2 L3 L4 L5 L6 L7 L8 L9 L10 L11 L12 N1 N2 N3 N4 N5 N6.

(** Read [newValue] in [H] for the method named by [Hm]. *)
Ltac new_of Hm H :=
  unfold newValue in H; rewrite Hm in H;
  cbn [String.eqb Ascii.eqb Bool.eqb] in H.

(** X3.  A parameter-update descriptor whose old value is the live value
    and whose new value passes validation is applied: with ledger and state
    meta wired, [Run] is the write of [new_X] to the state meta; it returns
    what the setter returns, and when that is nil the live value is
    [new_X] and nothing else has changed. *)
Theorem guard_accepts_match
    (E : Externals) (k : Kernel) (desc : TxDesc) (w : World) (u v : MetaWrite) :
  oldValue E k desc w = Some u ->
  newValue E k desc w = Some v ->
  applyWrite u (meta w) = meta w ->
  noLedgerObj k = false ->
  noUtxoMeta k = false ->
  Run E k desc w = putMeta E v w.
Proof.
  intros Hold Hnew Hlive Hl Hu.
  apply applyWrite_live in Hlive.
  by_method Hold; new_of Hm Hnew; dispatch_goal E Hm; handlers;
    rewrite ?Hl, ?Hu; handlers;
    repeat (case_match; simplify_eq); try reflexivity; exfalso.
  all: match goal with
       | H : negb (?a =? ?b) = true |- _ =>
           assert (Heq : a = b) by congruence;
           rewrite Heq, Z.eqb_refl in H; discriminate
       | H : gasPriceDiffer ?a ?b = true |- _ =>
           assert (Heq : a = b) by congruence;
           rewrite (proj2 (gasPrice_equal _ _) Heq) in H; discriminate
       | H : headDiffer ?a ?b = true |- _ =>
           assert (Heq : a = b) by congruence;
           rewrite (proj1 (proj2 (requests_equal a b) Heq)) in H; discriminate
       | H : argsDiffer (Args ?a) (Args ?b) = true |- _ =>
           assert (Heq : a = b) by congruence;
           rewrite (proj2 (proj2 (requests_equal a b) Heq)) in H; discriminate
       | H : reservedOuter 0 ?a ?b = Some _ |- _ =>
           assert (Heq : a = b) by congruence;
           rewrite (proj2 (reservedOuter_same_length a b
                             (f_equal length Heq)) Heq) in H; discriminate
       end.
Qed.
(** X4.  What the guard of UpdateReservedContract compares: the old list
    passes exactly when it agrees with the live list on the first [n]
    elements, [n] being the shorter of the two lengths.  Elements past [n],
    in either list, are not looked at. *)
Theorem reserved_guard_compares_common_prefix (oldParams orig : list InvokeRequest) :
  reservedOuter 0 oldParams orig = None <->
  take (min (length oldParams) (length orig)) oldParams
    = take (min (length oldParams) (length orig)) orig.
Proof.
  rewrite reservedOuter_None. set (n := min (length oldParams) (length orig)).
  split.
  - intros Hall. apply list_eq. intros i.
    destruct (decide (i < n)%nat) as [Hi | Hi].
    + rewrite !lookup_take_lt by exact Hi.
      destruct (lookup_lt_is_Some_2 oldParams i ltac:(lia)) as [a Ha].
      destruct (lookup_lt_is_Some_2 orig i ltac:(lia)) as [b Hb].
      rewrite Ha, Hb. f_equal. exact (Hall i a b Ha Hb).
    + now rewrite !lookup_take_ge by lia.
  - intros Htake i vold vorig Ho Hl. cbn in Hl.
    assert (Hi : (i < n)%nat).
    { apply lookup_lt_Some in Ho. apply lookup_lt_Some in Hl. lia. }
    rewrite <- (lookup_take_lt oldParams n) in Ho by exact Hi.
    rewrite <- (lookup_take_lt orig n) in Hl by exact Hi.
    rewrite Htake in Ho. congruence.
Qed.

(** *** Creating a chain *)


(** X7.  [CreateBlockChain] acts on the file system only, and never removes
    a path that lies outside the directory it was asked to create, whatever
    the outcome. *)
Theorem createBlockChain_frame
    (E : Externals) (k : Kernel) (name data : string) (w : World) :
  let w' := snd (CreateBlockChain E k name data w) in
  w' = setPaths (paths w') w /\
  forall p : string,
    p ∈ paths w -> under (filepath_Join E (datapath k) name) p = false -> p ∈ paths w'.
Proof.
  destruct w as [m nf txs rw bc ps rl lg]. cbn zeta.
  unfold CreateBlockChain, PathExists, MkdirAll, WriteFile, RemoveAll.
  munfold. unfold setPaths. cbn [paths meta noFee ledgerTxs rewrites bucketCache registerLog logid].
  repeat (case_match; simplify_eq);
    cbn [snd paths meta noFee ledgerTxs rewrites bucketCache registerLog logid];
    (split; [reflexivity |]); intros p Hp Hout; try exact Hp;
    try (apply elem_of_filter; split; [exact Hout |]); set_solver.
Qed.

(** X8.  [runCreateBlockChain] changes the world only behind its gates: if
    the world it returns differs from the one it received, then the
    descriptor passed validation, the kernel belongs to the root chain, the
    transaction comes from a white-listed address (or the white list is
    disabled) and, unless the ledger charges no fee, pays the new chain at
    least the configured minimum. *)
Theorem runCreateBlockChain_gated
    (E : Externals) (k : Kernel) (desc : TxDesc) (w : World) :
  snd (runCreateBlockChain E k desc w) = w \/
  exists (name data : string) (tx : Transaction),
    fst (validateCreateBC E k desc w) = Done (inr (name, data)) /\
    bcName k = "xuper" /\
    Tx desc = Some tx /\
    (whiteListed k tx = true \/ DisableCreateChainWhiteList (kernelConfig k) = true) /\
    (noFee w = true \/
     big_SetString E (MinNewChainAmount (kernelConfig k)) <= GetAmountByAddress tx name).
Proof.
  unfold runCreateBlockChain, callRegisterBlockChain, derefTx, derefLedgerObj,
         validateCreateBC.
  munfold.
  repeat (case_match; simplify_eq); cbn [fst snd]; try (left; reflexivity).
  all: right; do 3 eexists; split; [reflexivity |].
  all: split; [apply String.eqb_eq; now apply negb_false_iff |].
  all: split; [reflexivity |].
  all: split.
  all: match goal with
       | H : negb (whiteListed _ _) && negb _ = false
         |- whiteListed _ _ = true \/ _ =>
           apply andb_false_iff in H;
           destruct H as [H | H]; apply negb_false_iff in H; [left | right]; exact H
       | H : negb (noFee _) && (_ <? _) = false |- noFee _ = true \/ _ =>
           apply andb_false_iff in H;
           destruct H as [H | H];
           [left; now apply negb_false_iff in H | right; now apply Z.ltb_ge in H]
       end.
Qed.
(** *** Stopping a chain *)

(** X9.  [runStopBlockChain] either leaves the world as it was or, all of
    its gates passed (stop enabled, a non-empty string name other than
    "xuper", a white-listed sender or no white list, a register), appends one
    unload request for that name to the calls of the register and returns
    nil.  It never touches the file system, the state meta or the ledger. *)
Theorem runStopBlockChain_effects (k : Kernel) (desc : TxDesc) (w : World) :
  snd (runStopBlockChain k desc w) = w \/
  exists (name : string) (tx : Transaction) (reg : ChainRegister),
    EnableStopChain (kernelConfig k) = true /\
    validStopName desc = Some name /\
    name ≠ "xuper" /\
    Tx desc = Some tx /\
    (whiteListed k tx = true \/ DisableCreateChainWhiteList (kernelConfig k) = true) /\
    register k = Some reg /\
    runStopBlockChain k desc w
      = (Done None, setRegisterLog (registerLog w ++ [CallUnloadBlockChain name]) w).
Proof.
  unfold runStopBlockChain, callUnloadBlockChain, derefTx.
  munfold.
  repeat (case_match; simplify_eq); cbn [fst snd]; try (left; reflexivity).
  all: right; do 3 eexists.
  all: split; [now apply negb_false_iff |].
  all: split; [reflexivity |].
  all: split; [now apply String.eqb_neq |].
  all: split; [reflexivity |].
  all: split; [| split; reflexivity].
  all: match goal with
       | H : negb (whiteListed _ _) && negb _ = false |- _ =>
           apply andb_false_iff in H;
           destruct H as [H | H]; apply negb_false_iff in H; [left | right]; exact H
       end.
Qed.

(** X10.  A StopBlockChain descriptor that [Run] has executed to nil can be
    rolled back: in the world that [Run] leaves, [Rollback] of the same
    descriptor returns nil and changes nothing. *)
Theorem stop_then_rollback
    (E : Externals) (k : Kernel) (desc : TxDesc) (w : World) :
  Method desc = "StopBlockChain" ->
  fst (Run E k desc w) = Done None ->
  Rollback E k desc (snd (Run E k desc w)) = (Done None, snd (Run E k desc w)).
Proof.
  intros Hm Hrun.
  assert (Hr : runKernelFuncMap E !! "StopBlockChain" = Some runStopBlockChain)
    by reflexivity.
  assert (Hb : rollbackKernelFuncMap E !! "StopBlockChain" = Some rollbackStopBlockChain)
    by reflexivity.
  assert (Hroot : rootKernelMap !! "StopBlockChain" = Some true) by reflexivity.
  unfold Run, Rollback, kernelRun in *. rewrite Hm, Hr, Hroot in *. rewrite Hb.
  cbn [default] in *.
  destruct (negb (String.eqb (bcName k) "xuper")); [discriminate Hrun |].
  cbn [andb] in *.
  generalize (snd (runStopBlockChain k desc w)).
  unfold runStopBlockChain, rollbackStopBlockChain, callUnloadBlockChain, derefTx in *.
  munfold.
  repeat (case_match; simplify_eq); cbn [fst] in *; try discriminate; reflexivity.
Qed.

Lemma stop_then_rollback_witness :
  Rollback Demo.ext Demo.kernel Demo.stopSide1
    (snd (Run Demo.ext Demo.kernel Demo.stopSide1 Demo.world0))
  = (Done None, snd (Run Demo.ext Demo.kernel Demo.stopSide1 Demo.world0)).
Proof.
  apply (stop_then_rollback Demo.ext Demo.kernel Demo.stopSide1 Demo.world0).
  - reflexivity.
  - vm_compute. reflexivity.
Defined.
(** *** Panics *)

Lemma run_table_cases (E : Externals) (m : string) (f : KernelMethodFunc) :
  runKernelFuncMap E !! m = Some f -> (m, f) ∈ runKernelFuncTable E.
Proof. apply elem_of_list_to_map_2. Qed.

Lemma rollback_table_cases (E : Externals) (m : string) (f : KernelMethodFunc) :
  rollbackKernelFuncMap E !! m = Some f -> (m, f) ∈ rollbackKernelFuncTable E.
Proof. apply elem_of_list_to_map_2. Qed.

(** Split on the entry of a method table. *)
Ltac table_cases H :=
  unfold runKernelFuncTable, rollbackKernelFuncTable in H;
  repeat (apply elem_of_cons in H;
          destruct H as [H | H];
          [let Hm := fresh "Hm" in injection H as Hm -> |]);
  [.. | now apply elem_of_nil in H].

Ltac all_handlers :=
  unfold runStopBlockChain, rollbackStopBlockChain, rollbackCreateBlockChain,
         runUpdateBlockChainData, rollbackUpdateBlockChainData,
         RemoveBlockChainData, LedgerUpdateBlockChainData, persistRewrite,
         callUnloadBlockChain, callRegisterBlockChain, derefTx, derefLedgerObj,
         blockHeight, validateCreateBC, PathExists, Mkdir, Rename, Glogid in *;
  handlers.

(** The numeric validators pass exactly the descriptors in which every
    listed argument is a number. *)
Lemma checkFloatArgs_pass (miss : string) (desc : TxDesc) (argNames : list string) :
  checkFloatArgs miss desc argNames = None <->
  Forall (fun argName => exists f, arg desc argName = VNumber f) argNames.
Proof.
  induction argNames as [| n rest IH]; cbn [checkFloatArgs].
  - split; [constructor | reflexivity].
  - rewrite Forall_cons, <- IH.
    destruct (arg desc n) eqn:Ha; cbn [isNil]; split;
      try discriminate; try (intros [[f Hf] _]; discriminate).
    + intros H. split; [eexists; reflexivity | exact H].
    + intros [_ H]. exact H.
Qed.

(** After validation the numeric arguments are numbers. *)
Ltac numbers_validated :=
  exfalso;
  match goal with
  | H : checkFloatArgs _ _ _ = None |- _ =>
      apply checkFloatArgs_pass in H;
      repeat (apply Forall_cons in H; destruct H as [[? ?] H]);
      congruence
  end.

(** X11.  [Rollback] never panics when the context is absent or carries a
    state meta: whatever the descriptor holds (missing arguments, arguments
    of the wrong type, an unknown method), the result is nil or an error. *)
Theorem rollback_never_panics
    (E : Externals) (k : Kernel) (desc : TxDesc) (w : World) :
  noLedgerObj k = true \/ noUtxoMeta k = false ->
  fst (Rollback E k desc w) ≠ Panic.
Proof.
  intros Hwired. unfold Rollback, kernelRun.
  destruct (rollbackKernelFuncMap E !! Method desc) as [f |] eqn:Hf;
    [| discriminate].
  destruct (default false (rootKernelMap !! Method desc)
            && negb (String.eqb (bcName k) "xuper")); [discriminate |].
  apply rollback_table_cases in Hf. table_cases Hf.
  all: all_handlers.
  all: destruct Hwired as [Hw | Hw]; rewrite ?Hw.
  all: repeat (case_match; simplify_eq); cbn [fst]; try discriminate.
  all: numbers_validated.
Qed.
Lemma rollback_never_panics_witness :
  fst (Rollback Demo.ext Demo.kernel (Demo.desc "UpdateMaxBlockSize" []) Demo.world0)
    ≠ Panic.
Proof.
  apply (rollback_never_panics Demo.ext Demo.kernel
           (Demo.desc "UpdateMaxBlockSize" []) Demo.world0).
  right. reflexivity.
Defined.

(** X12.  With a carrying transaction, a register, and a context that holds
    ledger, state meta and block, [Run] of any method other than
    CreateBlockChain never panics, whatever the arguments of the descriptor
    are. *)
Theorem run_never_panics
    (E : Externals) (k : Kernel) (desc : TxDesc) (w : World)
    (tx : Transaction) (reg : ChainRegister) (h : Z) :
  Method desc ≠ "CreateBlockChain" ->
  Tx desc = Some tx ->
  register k = Some reg ->
  context k = Some (mkTxContext true true (Some h)) ->
  fst (Run E k desc w) ≠ Panic.
Proof.
  intros Hnot Htx Hreg Hctx. unfold Run, kernelRun.
  destruct (runKernelFuncMap E !! Method desc) as [f |] eqn:Hf;
    [| discriminate].
  destruct (default false (rootKernelMap !! Method desc)
            && negb (String.eqb (bcName k) "xuper")); [discriminate |].
  apply run_table_cases in Hf. table_cases Hf; [congruence | ..].
  all: all_handlers.
  all: unfold validateUpdateBlockChainData, QueryTransaction, derefLedgerObj,
              noLedgerObj, noUtxoMeta in *.
  all: rewrite ?Htx, ?Hreg, ?Hctx; cbn [LedgerObj UtxoMeta Block negb]; munfold.
  all: repeat (case_match; simplify_eq); cbn [fst]; try discriminate.
  all: try numbers_validated.
  all: exfalso;
       match goal with
       | H : evictOutputs _ _ ?t ?i ?l ?u = (Panic, _) |- _ =>
           assert (Hk : noUtxoMeta k = false)
             by (unfold noUtxoMeta; now rewrite Hctx);
           pose proof (evictOutputs_Done E k t l Hk i u) as Hd;
           rewrite H in Hd; discriminate Hd
       end.
Qed.
Lemma run_never_panics_witness :
  fst (Run Demo.ext Demo.kernel (Demo.desc "UpdateGasPrice" []) Demo.world0) ≠ Panic.
Proof.
  apply (run_never_panics Demo.ext Demo.kernel (Demo.desc "UpdateGasPrice" [])
           Demo.world0 Demo.carrier Demo.stubbornRegister 7).
  - discriminate.
  - reflexivity.
  - reflexivity.
  - reflexivity.
Defined.

(** *** Rolling back a creation *)

Lemma string_length_append (a b : string) :
  String.length (a +:+ b) = (String.length a + String.length b)%nat.
Proof.
  induction a as [| c a IH]; [reflexivity |].
  change (String c a +:+ b) with (String c (a +:+ b)).
  cbn [String.length Nat.add]. now rewrite IH.
Qed.

Lemma string_append_empty (a : string) : a +:+ "" = a.
Proof.
  induction a as [| c a IH]; [reflexivity |].
  change (String c a +:+ "") with (String c (a +:+ "")). now rewrite IH.
Qed.

Lemma substring_nothing (s : string) : forall n : nat, String.substring n 0 s = "".
Proof.
  induction s as [| c s IH]; intros [| n]; cbn [String.substring]; try reflexivity.
  apply IH.
Qed.

Lemma substring_whole (b : string) : String.substring 0 (String.length b) b = b.
Proof.
  induction b as [| c b IHb]; cbn [String.substring String.length];
    [reflexivity | now rewrite IHb].
Qed.

Lemma substring_suffix (a b : string) :
  String.substring (String.length a)
                   (String.length (a +:+ b) - String.length a) (a +:+ b) = b.
Proof.
  rewrite string_length_append.
  replace (String.length a + String.length b - String.length a)%nat
    with (String.length b) by lia.
  induction a as [| c a IH]; [apply substring_whole |].
  change (String c a +:+ b) with (String c (a +:+ b)).
  cbn [String.length String.substring]. exact IH.
Qed.

Lemma under_self (dir : string) : under dir dir = true.
Proof. unfold under. now rewrite String.eqb_refl. Qed.

(** A rename into a longer path leaves nothing at the old path and
    something at the new one. *)
Lemma rename_moves (old new : string) (ps : gset string) :
  (String.length old < String.length new)%nat ->
  old ∈ ps ->
  (old ∉ (set_map (rebase old new) ps : gset string)) /\
  (new ∈ (set_map (rebase old new) ps : gset string)).
Proof.
  intros Hlen Hin. split.
  - intros Hm. apply elem_of_map in Hm. destruct Hm as (x & Hx & _).
    unfold rebase in Hx. destruct (under old x) eqn:Hu.
    + apply (f_equal String.length) in Hx.
      rewrite string_length_append in Hx. lia.
    + subst x. rewrite under_self in Hu. discriminate.
  - apply elem_of_map. exists old. split; [| exact Hin].
    unfold rebase. rewrite under_self, Nat.sub_diag, substring_nothing.
    now rewrite string_append_empty.
Qed.

(** The world that [rollbackCreateBlockChain] leaves when the directory is
    there and the moves succeed. *)
Lemma rollbackCreateBlockChain_present
    (E : Externals) (k : Kernel) (desc : TxDesc) (w : World) (name data : string) :
  validateCreateBC E k desc w = (Done (inr (name, data)), w) ->
  bcName k = "xuper" ->
  (datapath k +:+ "/" +:+ name) ∈ paths w ->
  (datapath k +:+ "/../trash") ∈ paths w
    \/ os_Mkdir E (datapath k +:+ "/../trash") = None ->
  os_Rename E (datapath k +:+ "/" +:+ name)
    ((datapath k +:+ "/../trash") +:+ "/" +:+ name +:+ "_" +:+ pretty (logid w)) = None ->
  exists ps : gset string,
    (datapath k +:+ "/" +:+ name) ∈ ps /\ paths w ⊆ ps /\
    rollbackCreateBlockChain E k desc w
    = (Done (match register k with
             | Some reg => UnloadBlockChain reg name
             | None => None
             end),
       setRegisterLog
         (app (registerLog w) (match register k with
                               | Some _ => [CallUnloadBlockChain name]
                               | None => []
                               end))
         (setPaths
            (set_map (rebase (datapath k +:+ "/" +:+ name)
                        ((datapath k +:+ "/../trash") +:+ "/" +:+ name +:+ "_"
                           +:+ pretty (logid w))) ps)
            (setLogid (S (logid w)) w))).
Proof.
  intros Hv Hx Hin Htrash Hren.
  set (fullpath := datapath k +:+ "/" +:+ name) in *.
  set (trashPath := datapath k +:+ "/../trash") in *.
  unfold rollbackCreateBlockChain.
  rewrite (bind_Done _ _ _ _ _ Hv).
  unfold RemoveBlockChainData, PathExists, Mkdir, Rename, Glogid,
         callUnloadBlockChain.
  munfold. fold fullpath trashPath.
  rewrite (bool_decide_eq_true_2 _ Hin), Hx. cbn [negb String.eqb Ascii.eqb Bool.eqb].
  destruct w as [m nf txs rw bc ps rl lg].
  cbn [paths logid setPaths setLogid setRegisterLog registerLog meta noFee
       ledgerTxs rewrites bucketCache] in *.
  destruct (bool_decide (trashPath ∈ ps)) eqn:Hb.
  - cbn [paths logid setPaths setLogid]. rewrite Hren.
    exists ps. split; [exact Hin |]. split; [reflexivity |].
    destruct (register k); cbn [paths registerLog setRegisterLog];
      rewrite ?app_nil_r; reflexivity.
  - destruct Htrash as [Ht | Hmk];
      [apply bool_decide_eq_false_1 in Hb; contradiction |].
    rewrite Hmk. cbn [paths logid setPaths setLogid]. rewrite Hren.
    exists ({[trashPath]} ∪ ps). split; [set_solver |]. split; [set_solver |].
    destruct (register k); cbn [paths registerLog setRegisterLog];
      rewrite ?app_nil_r; reflexivity.
Qed.

(** X13.  For a CreateBlockChain descriptor that passes validation on the
    root chain, when the directory [<datapath>/<name>] exists, the trash
    directory exists or can be made, and the rename succeeds,
    [rollbackCreateBlockChain] moves the directory to
    [<datapath>/../trash/<name>_<id>] with a fresh identifier: nothing is left
    at the old path.  It then asks the register, if there is one, to unload
    the chain and returns the register's answer. *)
Theorem rollbackCreateBlockChain_moves_to_trash
    (E : Externals) (k : Kernel) (desc : TxDesc) (w : World) (name data : string) :
  let fullpath := datapath k +:+ "/" +:+ name in
  let trashPath := datapath k +:+ "/../trash" in
  let target := trashPath +:+ "/" +:+ name +:+ "_" +:+ pretty (logid w) in
  let r := rollbackCreateBlockChain E k desc w in
  validateCreateBC E k desc w = (Done (inr (name, data)), w) ->
  bcName k = "xuper" ->
  fullpath ∈ paths w ->
  trashPath ∈ paths w \/ os_Mkdir E trashPath = None ->
  os_Rename E fullpath target = None ->
  fst r = Done (match register k with
                | Some reg => UnloadBlockChain reg name
                | None => None
                end) /\
  (fullpath ∉ paths (snd r)) /\
  (target ∈ paths (snd r)) /\
  registerLog (snd r)
    = app (registerLog w) (match register k with
                           | Some _ => [CallUnloadBlockChain name]
                           | None => []
                           end).
Proof.
  intros fullpath trashPath target r. subst r fullpath trashPath target.
  intros Hv Hx Hin Htrash Hren.
  destruct (rollbackCreateBlockChain_present E k desc w name data
              Hv Hx Hin Htrash Hren) as (ps & Hps & _ & ->).
  cbn [fst snd]. destruct w as [m nf txs rw bc ps0 rl lg].
  cbn [paths logid setPaths setLogid setRegisterLog registerLog].
  assert (Hlen : (String.length (datapath k +:+ "/" +:+ name)
                  < String.length ((datapath k +:+ "/../trash") +:+ "/" +:+ name
                                     +:+ "_" +:+ pretty lg))%nat).
  { rewrite !string_length_append. cbn. lia. }
  destruct (rename_moves _ _ ps Hlen Hps) as [Hgone Hthere].
  repeat split; assumption || reflexivity.
Qed.

Lemma rollbackCreateBlockChain_moves_to_trash_witness :
  fst (rollbackCreateBlockChain Demo.ext Demo.kernel Demo.createSide1 Demo.world1)
    = Done (Some (ExtError "chain not found")) /\
  ("data/blockchain/side1"
     ∉ paths (snd (rollbackCreateBlockChain Demo.ext Demo.kernel Demo.createSide1
                     Demo.world1))) /\
  ("data/blockchain/../trash/side1_0"
     ∈ paths (snd (rollbackCreateBlockChain Demo.ext Demo.kernel Demo.createSide1
                     Demo.world1))) /\
  registerLog (snd (rollbackCreateBlockChain Demo.ext Demo.kernel Demo.createSide1
                      Demo.world1))
    = [CallUnloadBlockChain "side1"].
Proof.
  refine (rollbackCreateBlockChain_moves_to_trash Demo.ext Demo.kernel
            Demo.createSide1 Demo.world1 "side1" "{}" _ _ _ _ _).
  - reflexivity.
  - reflexivity.
  - apply (bool_decide_unpack _). vm_compute. exact I.
  - right. reflexivity.
  - reflexivity.
Defined.
Lemma prefix_append (b c : string) : String.prefix b (b +:+ c) = true.
Proof.
  induction b as [| x b IH]; [now destruct c |].
  change (String x b +:+ c) with (String x (b +:+ c)).
  cbn [String.prefix]. destruct (Ascii.ascii_dec x x); [exact IH | congruence].
Qed.




(** *** The validator of the reserved contracts *)

Lemma reservedLoop_error (desc : TxDesc) (E : Externals) (argNames : list string) :
  forall (name1 name2 : string) (r1 r2 : list JInvokeRequest) (e : error),
    reservedLoop E desc name1 argNames r1 = inl e ->
    reservedLoop E desc name2 argNames r2 = inl e.
Proof.
  induction argNames as [| a rest IH]; intros name1 name2 r1 r2 e;
    cbn [reservedLoop]; [discriminate |].
  destruct (reservedParams E desc a); [trivial |]. apply IH.
Qed.

(** X15.  [validateUpdateReservedContract] checks both lists whichever of
    them it is asked for: it fails for one argument name exactly when it
    fails for the other, and with the same error.  A descriptor whose new
    list is malformed therefore fails the validation of its old list as
    well. *)
Theorem reserved_validation_covers_both_lists
    (E : Externals) (k : Kernel) (desc : TxDesc) (name1 name2 : string)
    (w : World) (e : error) :
  fst (validateUpdateReservedContract E k desc name1 w) = Done (inl e) <->
  fst (validateUpdateReservedContract E k desc name2 w) = Done (inl e).
Proof.
  unfold validateUpdateReservedContract. munfold. cbn [fst].
  split; intros H;
    match type of H with
    | Done match ?l with _ => _ end = _ =>
        destruct l as [e' | r] eqn:Hl; [| discriminate H];
        injection H as ->;
        erewrite reservedLoop_error by exact Hl; reflexivity
    end.
Qed.
(** *** The historical rewrite *)

(** X16.  A public key that does not derive [ModifyBlockAddr] is refused
    before anything else is looked at: [Run] of UpdateBlockChainData returns
    "address and public key not match" and leaves the world as it was (no
    cache entry evicted, nothing handed to the ledger). *)
Theorem unauthorized_key_is_refused
    (E : Externals) (k : Kernel) (desc : TxDesc) (w : World)
    (txid publicKey : string) (xcc : CryptoClient) (ecdsaKey : ecdsaPublicKey) :
  Method desc = "UpdateBlockChainData" ->
  noLedgerObj k = false ->
  arg desc "txid" = VString txid ->
  arg desc "publicKey" = VString publicKey ->
  isNil (arg desc "sign") = false ->
  CreateCryptoClientFromJSONPublicKey E publicKey = inr xcc ->
  GetEcdsaPublicKeyFromJsonStr xcc publicKey = inr ecdsaKey ->
  fst (VerifyAddressUsingPublicKey xcc (ModifyBlockAddr (kernelConfig k)) ecdsaKey) = false ->
  Run E k desc w = (Done (Some (Errorf "address and public key not match")), w).
Proof.
  intros Hm Hl Ht Hp Hs Hc Hk Ha.
  assert (Hr : runKernelFuncMap E !! "UpdateBlockChainData"
               = Some (runUpdateBlockChainData E)) by reflexivity.
  assert (Hroot : rootKernelMap !! "UpdateBlockChainData" = None) by reflexivity.
  unfold Run, kernelRun. rewrite Hm, Hr, Hroot. cbn [default andb].
  unfold runUpdateBlockChainData, validateUpdateBlockChainData.
  rewrite Hl, Ht, Hp, Hs, Hc, Hk, Ha. reflexivity.
Qed.

Lemma unauthorized_key_is_refused_witness :
  Run Demo.ext Cases.strangerKernel (Demo.rewrite "digest:cafe") Demo.world0
    = (Done (Some (Errorf "address and public key not match")), Demo.world0).
Proof.
  apply (unauthorized_key_is_refused Demo.ext Cases.strangerKernel
           (Demo.rewrite "digest:cafe") Demo.world0 "cafe" "{}" Demo.crypto
           (mkEcdsaPublicKey "P-256" 1 2)).
  - reflexivity.
  - reflexivity.
  - reflexivity.
  - reflexivity.
  - reflexivity.
  - reflexivity.
  - reflexivity.
  - reflexivity.
Defined.

Lemma guard_accepts_match_witness :
  Run Demo.ext Demo.kernel Cases.updateGasPrice Demo.world0
    = putMeta Demo.ext (WGasPrice (mkGasPrice 2 2 2 2)) Demo.world0.
Proof.
  apply (guard_accepts_match Demo.ext Demo.kernel Cases.updateGasPrice Demo.world0
           (WGasPrice (mkGasPrice 1 1 1 1)) (WGasPrice (mkGasPrice 2 2 2 2))).
  - vm_compute. reflexivity.
  - vm_compute. reflexivity.
  - vm_compute. reflexivity.
  - reflexivity.
  - reflexivity.
Defined.


(** *** What a parameter update touches *)

(** X18.  [Run] and [Rollback] of a parameter update touch nothing but the
    parameter the method is named after: the world they leave is the one
    they received, or that world with one accepted write to the state meta,
    the write being a request of that method. *)
Theorem parameter_update_frame
    (E : Externals) (k : Kernel) (desc : TxDesc) (w : World) :
  Method desc ∈ parameterUpdates ->
  (snd (Run E k desc w) = w \/
   exists v, methodOf v = Method desc /\
             StateMeta_put E v (meta w) = None /\
             Run E k desc w = (Done None, setMeta (applyWrite v (meta w)) w)) /\
  (snd (Rollback E k desc w) = w \/
   exists v, methodOf v = Method desc /\
             StateMeta_put E v (meta w) = None /\
             Rollback E k desc w = (Done None, setMeta (applyWrite v (meta w)) w)).
Proof.
  intros Hin. unfold parameterUpdates in Hin.
  repeat (apply elem_of_cons in Hin; destruct Hin as [Hm | Hin]);
    [.. | now apply elem_of_nil in Hin].
  all: split; dispatch_goal E Hm; handlers.
  all: repeat (case_match; simplify_eq); cbn [fst snd]; try (left; reflexivity).
  all: right; eexists; split; [| split; [eassumption | reflexivity]]; reflexivity.
Qed.

Lemma parameter_update_frame_witness :
  (snd (Run Demo.ext Demo.kernel (Demo.updateBlockSize 1048576 2097152) Demo.world0)
     = Demo.world0 \/
   exists v, methodOf v = "UpdateMaxBlockSize" /\
             StateMeta_put Demo.ext v (meta Demo.world0) = None /\
             Run Demo.ext Demo.kernel (Demo.updateBlockSize 1048576 2097152) Demo.world0
               = (Done None, setMeta (applyWrite v (meta Demo.world0)) Demo.world0)) /\
  (snd (Rollback Demo.ext Demo.kernel (Demo.updateBlockSize 1048576 2097152)
          Demo.world0) = Demo.world0 \/
   exists v, methodOf v = "UpdateMaxBlockSize" /\
             StateMeta_put Demo.ext v (meta Demo.world0) = None /\
             Rollback Demo.ext Demo.kernel (Demo.updateBlockSize 1048576 2097152)
                      Demo.world0
               = (Done None, setMeta (applyWrite v (meta Demo.world0)) Demo.world0)).
Proof.
  apply (parameter_update_frame Demo.ext Demo.kernel
           (Demo.updateBlockSize 1048576 2097152) Demo.world0).
  apply (bool_decide_unpack _). vm_compute. exact I.
Defined.
(** ** Properties of the identity authentication *)

Section AuthenticationLoop.
Import P2P.
Context (X : AuthExternals) (s : Stream) (clock : nat -> Z).

(** The loop returns the addresses exactly when every entry is verified. *)
Lemma checkAuths_inr (auths : list IdentityAuth) :
  forall (i : nat) (addrs out : list string),
    checkAuths X s clock i auths addrs = inr out <->
    (forall j v, auths !! j = Some v -> verified X s (clock (i + j)%nat) v) /\
    out = app addrs (map Addr auths).
Proof.
  induction auths as [| v rest IH]; intros i addrs out; cbn [checkAuths map].
  - rewrite app_nil_r. split.
    + intros [= <-]. split; [intros j v Hl; discriminate | reflexivity].
    + intros [_ ->]. reflexivity.
  - split.
    + intros H.
      destruct (String.eqb (peerPretty s) (PeerID v)) eqn:Hp; [| discriminate H].
      cbn [negb] in H.
      destruct (CreateCryptoClient X (Pubkey v)) as [| cc] eqn:Hc; [discriminate H |].
      destruct (GetEcdsaPublicKeyFromJsonStr (verifier cc) (Pubkey v))
        as [| pub] eqn:Hk; [discriminate H |].
      destruct (fst (VerifyAddressUsingPublicKey (verifier cc) (Addr v) pub))
        eqn:Ha; [| discriminate H].
      cbn [negb] in H.
      destruct (strconv_ParseInt X (Timestamp v)) as [| tsPast] eqn:Ht;
        [discriminate H |].
      destruct (expired X (clock i) tsPast) eqn:He; [discriminate H |].
      destruct (fst (VerifyECDSA (verifier cc) pub (Sign v)
                       (UsingSha256 X (PeerID v +:+ Addr v +:+ Timestamp v))))
        eqn:Hs; [| discriminate H].
      cbn [negb] in H. apply IH in H. destruct H as [Hrest ->].
      split; [| now rewrite <- app_assoc].
      intros [| j] u Hl.
      * cbn in Hl. injection Hl as <-. rewrite Nat.add_0_r.
        split; [now apply String.eqb_eq |].
        exists cc, pub, tsPast. repeat split; assumption.
      * replace (i + S j)%nat with (S i + j)%nat by lia. now apply Hrest.
    + intros [Hall ->].
      destruct (Hall 0%nat v eq_refl)
        as (Hp & cc & pub & tsPast & Hc & Hk & Ha & Ht & He & Hs).
      rewrite Nat.add_0_r in He.
      apply String.eqb_eq in Hp. rewrite Hp, Hc, Hk, Ha, Ht, He, Hs. cbn [negb].
      apply IH. split; [| now rewrite <- app_assoc].
      intros j u Hl. replace (S i + j)%nat with (i + S j)%nat by lia.
      now apply Hall.
Qed.

End AuthenticationLoop.

(** X19.  [handleGetAuthentication] on a stream has two outcomes.  Either
    it returns the error message with a non-nil error and leaves the stream
    as it was; or the message decoded to entries that are all verified (the
    peer id of the stream, a key deriving the address, a parseable timestamp
    that has not expired, a signature of the hash of peer id, address and
    timestamp), and the stream is marked authenticated and handed the
    addresses of the entries in order. *)
Theorem handleGetAuthentication_outcome
    (X : P2P.AuthExternals) (s : P2P.Stream) (clock : nat -> Z)
    (msg : P2P.XuperMessage) :
  (exists e : error,
     P2P.handleGetAuthentication X (Some s) clock msg
       = Done (P2P.errorHandleGetAuthenMsg X (P2P.Logid msg), Some e, Some s)) \/
  (exists (auths : list P2P.IdentityAuth) (resBuf : string),
     P2P.proto_Unmarshal X (P2P.MsgInfo msg) = inr auths /\
     (forall i v, auths !! i = Some v -> P2P.verified X s (clock i) v) /\
     P2P.json_Marshal X (map P2P.Addr auths) = inr resBuf /\
     P2P.handleGetAuthentication X (Some s) clock msg
       = Done (P2P.NewXuperMessage X (P2P.XuperMsgVersion2 X) "" (P2P.Logid msg)
                 P2P.GET_AUTHENTICATION_RES (Some resBuf) P2P.SUCCESS,
               Some (P2P.mkStream (P2P.peerPretty s) true
                       (app (P2P.receivedAddr s) [map P2P.Addr auths])))).
Proof.
  unfold P2P.handleGetAuthentication.
  destruct (P2P.proto_Unmarshal X (P2P.MsgInfo msg)) as [e | auths] eqn:Hu;
    [left; eexists; reflexivity |].
  destruct (P2P.checkAuths X s clock 0 auths []) as [e | addrs] eqn:Hc;
    [left; eexists; reflexivity |].
  apply checkAuths_inr in Hc. destruct Hc as [Hall ->]. cbn [app].
  destruct (P2P.json_Marshal X (map P2P.Addr auths)) as [e | resBuf] eqn:Hj;
    [left; eexists; reflexivity |].
  right. exists auths, resBuf.
  split; [reflexivity |]. split; [exact Hall |]. split; [exact Hj |].
  now destruct (P2P.NewXuperMessage X (P2P.XuperMsgVersion2 X) "" (P2P.Logid msg)
                  P2P.GET_AUTHENTICATION_RES (Some resBuf) P2P.SUCCESS).
Qed.

(** X20.  A message that decodes to no entry at all authenticates the
    stream: no credential is looked at, the stream is marked authenticated
    and handed the empty list of addresses. *)
Theorem empty_request_authenticates
    (X : P2P.AuthExternals) (s : P2P.Stream) (clock : nat -> Z)
    (msg : P2P.XuperMessage) (resBuf : string) :
  P2P.proto_Unmarshal X (P2P.MsgInfo msg) = inr [] ->
  P2P.json_Marshal X [] = inr resBuf ->
  exists (res : option P2P.XuperMessage) (err : goerror),
    P2P.handleGetAuthentication X (Some s) clock msg
      = Done (res, err,
              Some (P2P.mkStream (P2P.peerPretty s) true
                      (app (P2P.receivedAddr s) [[]]))).
Proof.
  intros Hu Hj. unfold P2P.handleGetAuthentication.
  rewrite Hu. cbn [P2P.checkAuths]. rewrite Hj.
  destruct (P2P.NewXuperMessage X (P2P.XuperMsgVersion2 X) "" (P2P.Logid msg)
              P2P.GET_AUTHENTICATION_RES (Some resBuf) P2P.SUCCESS) as [res err].
  now exists res, err.
Qed.
Lemma empty_request_authenticates_witness :
  exists (res : option P2P.XuperMessage) (err : goerror),
    P2P.handleGetAuthentication AuthDemo.ext (Some AuthDemo.stream) (fun _ => 1000)
                                (AuthDemo.request "")
    = Done (res, err, Some (P2P.mkStream "QmAlice" true [[]])).
Proof.
  apply (empty_request_authenticates AuthDemo.ext AuthDemo.stream (fun _ => 1000)
           (AuthDemo.request "") "").
  - reflexivity.
  - reflexivity.
Defined.

(** X21.  The request that [GetAuthRequest] builds is the one that
    [handleGetAuthentication] verifies.  When the stream belongs to the
    requesting peer, the public key derives the address, signatures made with
    the private key verify under the public key, the timestamp text parses
    back to the instant it was made from, and that instant has not expired
    for the verifier's clock, the entry is verified and the loop returns the
    peer's address. *)
Theorem auth_request_is_verified
    (X : P2P.AuthExternals) (s : P2P.Stream) (clock : nat -> Z) (now : Z)
    (info : P2P.XchainAddrInfo) (auth : P2P.IdentityAuth)
    (cryptoClient : P2P.SigningClient) (publicKey : ecdsaPublicKey) :
  P2P.GetAuthRequest X now info = inr auth ->
  P2P.peerPretty s = P2P.InfoPeerID info ->
  P2P.CreateCryptoClient X (P2P.InfoPubkey info) = inr cryptoClient ->
  GetEcdsaPublicKeyFromJsonStr (P2P.verifier cryptoClient) (P2P.InfoPubkey info)
    = inr publicKey ->
  fst (VerifyAddressUsingPublicKey (P2P.verifier cryptoClient)
         (P2P.InfoAddr info) publicKey) = true ->
  (forall privateKey digest sign,
      P2P.GetEcdsaPrivateKeyFromJsonStr cryptoClient (P2P.InfoPrikey info)
        = inr privateKey ->
      P2P.SignECDSA cryptoClient privateKey digest = inr sign ->
      fst (VerifyECDSA (P2P.verifier cryptoClient) publicKey sign digest) = true) ->
  P2P.strconv_ParseInt X (P2P.strconv_FormatInt X now) = inr now ->
  P2P.expired X (clock 0%nat) now = false ->
  P2P.verified X s (clock 0%nat) auth /\
  P2P.checkAuths X s clock 0 [auth] [] = inr [P2P.InfoAddr info].
Proof.
  intros Hreq Hpeer Hc Hk Ha Hpair Hts Hfresh.
  unfold P2P.GetAuthRequest in Hreq. rewrite Hc in Hreq.
  destruct (P2P.GetEcdsaPrivateKeyFromJsonStr cryptoClient (P2P.InfoPrikey info))
    as [| privateKey] eqn:Hpriv; [discriminate Hreq |].
  destruct (P2P.SignECDSA cryptoClient privateKey _) as [| sign] eqn:Hsign;
    [discriminate Hreq |].
  injection Hreq as <-.
  assert (Hv : P2P.verified X s (clock 0%nat)
                 (P2P.mkIdentityAuth sign (P2P.InfoPubkey info) (P2P.InfoAddr info)
                    (P2P.InfoPeerID info) (P2P.strconv_FormatInt X now))).
  { split; [exact Hpeer |]. exists cryptoClient, publicKey, now. cbn.
    repeat split; try assumption. exact (Hpair _ _ _ eq_refl Hsign). }
  split; [exact Hv |].
  apply checkAuths_inr. split; [| reflexivity].
  intros [| j] v Hl; [| discriminate Hl]. now injection Hl as <-.
Qed.

Lemma auth_request_is_verified_witness :
  P2P.verified AuthDemo.ext AuthDemo.stream 1010 AuthDemo.aliceAuth /\
  P2P.checkAuths AuthDemo.ext AuthDemo.stream (fun _ => 1010) 0 [AuthDemo.aliceAuth] []
    = inr ["alice-address"].
Proof.
  refine (auth_request_is_verified AuthDemo.ext AuthDemo.stream (fun _ => 1010) 1000
            AuthDemo.alice AuthDemo.aliceAuth AuthDemo.client
            (mkEcdsaPublicKey "P-256" 1 2) _ _ _ _ _ _ _ _).
  - reflexivity.
  - reflexivity.
  - reflexivity.
  - reflexivity.
  - reflexivity.
  - intros privateKey digest sign _ [= <-]. cbn. now rewrite String.eqb_refl.
  - reflexivity.
  - vm_compute. reflexivity.
Defined.
(** X22.  The expiry test loses nothing to floating point: for a timeout of
    a whole number of seconds up to [2^53], a timestamp has expired exactly
    when the distance between the verifier's clock and the timestamp,
    subtracted in 64-bit arithmetic, is at least the timeout. *)
Theorem expiry_is_exact
    (X : P2P.AuthExternals) (tsNow tsPast T : Z) :
  P2P.DefautltAuthTimeout X = Float64 T 0 ->
  0 <= T <= 2 ^ 53 ->
  P2P.expired X tsNow tsPast = (T <=? Z.abs (P2P.wrap64 (tsNow - tsPast))).
Proof.
  intros HT HTr. unfold P2P.expired. rewrite HT.
  generalize (P2P.wrap64 (tsNow - tsPast)). intros z.
  unfold P2P.float64_of_int64, P2P.float64_abs, P2P.float64_ge.
  cbn zeta.
  set (a := Z.abs z).
  destruct ((if a =? 0 then 0 else Z.log2 a + 1) <=? 53) eqn:Hn.
  - cbn [mant expo]. cbn. now rewrite Z.mul_1_r.
  - destruct (a =? 0) eqn:Ha0; [discriminate Hn |].
    apply Z.eqb_neq in Ha0. apply Z.leb_gt in Hn.
    assert (Hapos : 0 < a) by (subst a; lia).
    set (e := Z.log2 a + 1 - 53) in *.
    assert (He : 1 <= e) by (subst e; lia).
    set (q := a / 2 ^ e).
    assert (Hbig : 2 ^ 52 * 2 ^ e <= a).
    { rewrite <- Z.pow_add_r by lia.
      replace (52 + e) with (Z.log2 a) by (subst e; lia).
      apply Z.log2_spec. exact Hapos. }
    assert (Hq : 2 ^ 52 <= q).
    { subst q. apply Z.div_le_lower_bound; [apply Z.pow_pos_nonneg; lia |].
      rewrite Z.mul_comm. exact Hbig. }
    set (q' := if (2 ^ (e - 1) <? a mod 2 ^ e)
                  || ((a mod 2 ^ e =? 2 ^ (e - 1)) && Z.odd q)
               then q + 1 else q).
    assert (Hq' : q <= q') by (subst q'; destruct (_ || _); lia).
    cbn [mant expo]. rewrite Z.sub_0_r.
    assert (He2 : 2 <= 2 ^ e).
    { change 2 with (2 ^ 1) at 1. apply Z.pow_le_mono_r; lia. }
    assert (Hsgn : Z.abs (Z.sgn z * q') = q').
    { rewrite Z.abs_mul. replace (Z.abs (Z.sgn z)) with 1 by (subst a; lia). lia. }
    rewrite Hsgn.
    replace (0 <=? e) with true by (symmetry; apply Z.leb_le; lia).
    transitivity true; [apply Z.leb_le | symmetry; apply Z.leb_le].
    + assert (2 ^ 53 <= q' * 2 ^ e); [| lia].
      change (2 ^ 53) with (2 ^ 52 * 2). nia.
    + assert (2 ^ 53 <= a); [| lia].
      assert (2 ^ 52 * 2 <= 2 ^ 52 * 2 ^ e) by nia.
      change (2 ^ 53) with (2 ^ 52 * 2). lia.
Qed.

Lemma expiry_is_exact_witness :
  P2P.expired AuthDemo.ext 1030 1000 = (30 <=? Z.abs (P2P.wrap64 (1030 - 1000))).
Proof.
  apply (expiry_is_exact AuthDemo.ext 1030 1000 30).
  - reflexivity.
  - lia.
Defined.
(** ** Properties of the p2p utilities *)

(** X23.  The key that [GenerateKeyPairWithPath] writes is the key that
    [GetKeyPairFromPath] reads back from the same path, the empty path
    standing for the default directory in both, whenever base64 decoding
    undoes the encoding and unmarshalling undoes the marshalling. *)
Theorem generated_key_is_read_back
    (K : NetKey.KeyExternals) (path : string) (fs fs' : NetKey.Files)
    (priv : NetKey.PrivKey) :
  (forall data,
      NetKey.base64_DecodeString K (NetKey.base64_EncodeToString K data) = inr data) ->
  (forall data,
      NetKey.MarshalPrivateKey K priv = inr data ->
      NetKey.UnmarshalPrivateKey K data = inr priv) ->
  NetKey.GenerateKeyPairWithReader K = inr priv ->
  NetKey.GenerateKeyPairWithPath K path fs = (None, fs') ->
  NetKey.GetKeyPairFromPath K path fs' = inr priv.
Proof.
  intros Hb64 Hm Hgen Hwrite.
  unfold NetKey.GenerateKeyPairWithPath, NetKey.WriteFile in Hwrite.
  rewrite Hgen in Hwrite.
  destruct (NetKey.MarshalPrivateKey K priv) as [| privData] eqn:Hmar;
    [discriminate Hwrite |].
  destruct (NetKey.os_MkdirAll K _); [discriminate Hwrite |].
  destruct (NetKey.ioutil_WriteFile K _ _); [discriminate Hwrite |].
  injection Hwrite as <-.
  unfold NetKey.GetKeyPairFromPath, NetKey.ReadFile.
  rewrite lookup_insert_eq, Hb64. now apply Hm.
Qed.

Lemma generated_key_is_read_back_witness :
  NetKey.GetKeyPairFromPath NetKeyDemo.ext ""
    (snd (NetKey.GenerateKeyPairWithPath NetKeyDemo.ext "" ∅))
  = inr (NetKey.mkPrivKey "rsa-2048").
Proof.
  refine (generated_key_is_read_back NetKeyDemo.ext "" ∅
            (snd (NetKey.GenerateKeyPairWithPath NetKeyDemo.ext "" ∅))
            (NetKey.mkPrivKey "rsa-2048") _ _ _ _).
  - intros data.
    change (NetKey.base64_DecodeString NetKeyDemo.ext
              (NetKey.base64_EncodeToString NetKeyDemo.ext data))
      with (if String.prefix "b64:" ("b64:" +:+ data)
            then inr (String.substring (String.length "b64:")
                        (String.length ("b64:" +:+ data) - String.length "b64:")
                        ("b64:" +:+ data))
            else @inl error string (ExtError "illegal base64 data")).
    now rewrite prefix_append, substring_suffix.
  - intros data [= <-]. reflexivity.
  - reflexivity.
  - reflexivity.
Defined.

(** X24.  For a non-empty path, the PEM file that [GeneratePemKeyFromNetKey]
    writes is the one that [GetPemKeyPairFromPath] reads: after a successful
    export it returns the RSA key unmarshalled from the raw bytes of the net
    key, whenever PEM decoding undoes the encoding of an RSA block. *)
Theorem exported_pem_key_is_read_back
    (K : NetKey.KeyExternals) (path : string) (fs fs' : NetKey.Files) :
  (forall bytes,
      NetKey.pem_Decode K
        (NetKey.pem_EncodeToMemory K (NetKey.mkPemBlock "RSA PRIVATE KEY" bytes))
      = Some (NetKey.mkPemBlock "RSA PRIVATE KEY" bytes)) ->
  path ≠ "" ->
  NetKey.GeneratePemKeyFromNetKey K path fs = (None, fs') ->
  exists (privKey : NetKey.PrivKey) (bytes : string),
    NetKey.GetKeyPairFromPath K path fs = inr privKey /\
    NetKey.Raw K privKey = inr bytes /\
    NetKey.GetPemKeyPairFromPath K path fs'
      = Done (NetKey.UnmarshalRsaPrivateKey K bytes).
Proof.
  intros Hpem Hpath Hexport.
  unfold NetKey.GeneratePemKeyFromNetKey, NetKey.WriteFile in Hexport.
  destruct (NetKey.GetKeyPairFromPath K path fs) as [| privKey] eqn:Hkey;
    [discriminate Hexport |].
  destruct (NetKey.Raw K privKey) as [| bytes] eqn:Hraw; [discriminate Hexport |].
  destruct (NetKey.ioutil_WriteFile K _ _); [discriminate Hexport |].
  injection Hexport as <-.
  exists privKey, bytes. repeat split; try assumption.
  unfold NetKey.GetPemKeyPairFromPath, NetKey.ReadFile, NetKey.orDefault.
  destruct path as [| c path]; [contradiction |]. cbn [String.length Nat.eqb].
  now rewrite lookup_insert_eq, Hpem.
Qed.

(** X25.  With the empty path the export and the read disagree on the
    directory: [GeneratePemKeyFromNetKey] reads the net key from the default
    directory but writes the PEM file to [Join "" "private.key"], while
    [GetPemKeyPairFromPath] looks in the default directory; where these are
    two files, a successful export changes nothing of what the read
    returns. *)
Theorem empty_path_export_is_not_read_back
    (K : NetKey.KeyExternals) (fs fs' : NetKey.Files) :
  NetKey.Join K "" "private.key"
    ≠ NetKey.Join K (NetKey.DefaultNetKeyPath K) "private.key" ->
  NetKey.GeneratePemKeyFromNetKey K "" fs = (None, fs') ->
  is_Some (fs' !! NetKey.Join K "" "private.key") /\
  NetKey.GetPemKeyPairFromPath K "" fs' = NetKey.GetPemKeyPairFromPath K "" fs.
Proof.
  intros Hdiff Hexport.
  unfold NetKey.GeneratePemKeyFromNetKey, NetKey.WriteFile in Hexport.
  destruct (NetKey.GetKeyPairFromPath K "" fs) as [| privKey]; [discriminate Hexport |].
  destruct (NetKey.Raw K privKey) as [| bytes]; [discriminate Hexport |].
  destruct (NetKey.ioutil_WriteFile K _ _); [discriminate Hexport |].
  injection Hexport as <-. split.
  - rewrite lookup_insert_eq. now eexists.
  - unfold NetKey.GetPemKeyPairFromPath, NetKey.ReadFile, NetKey.orDefault.
    cbn [String.length Nat.eqb]. now rewrite lookup_insert_ne.
Qed.
Lemma exported_pem_key_is_read_back_witness :
  exists (privKey : NetKey.PrivKey) (bytes : string),
    NetKey.GetKeyPairFromPath NetKeyDemo.ext "keys"
      {[ "keys/net_private.key" := "b64:der:rsa-2048" ]} = inr privKey /\
    NetKey.Raw NetKeyDemo.ext privKey = inr bytes /\
    NetKey.GetPemKeyPairFromPath NetKeyDemo.ext "keys"
      (snd (NetKey.GeneratePemKeyFromNetKey NetKeyDemo.ext "keys"
              {[ "keys/net_private.key" := "b64:der:rsa-2048" ]}))
    = Done (NetKey.UnmarshalRsaPrivateKey NetKeyDemo.ext bytes).
Proof.
  refine (exported_pem_key_is_read_back NetKeyDemo.ext "keys"
            {[ "keys/net_private.key" := "b64:der:rsa-2048" ]}
            (snd (NetKey.GeneratePemKeyFromNetKey NetKeyDemo.ext "keys"
                    {[ "keys/net_private.key" := "b64:der:rsa-2048" ]})) _ _ _).
  - intros bytes.
    change (NetKey.pem_Decode NetKeyDemo.ext
              (NetKey.pem_EncodeToMemory NetKeyDemo.ext
                 (NetKey.mkPemBlock "RSA PRIVATE KEY" bytes)))
      with (if String.prefix "pem:" ("pem:" +:+ bytes)
            then Some (NetKey.mkPemBlock "RSA PRIVATE KEY"
                         (String.substring (String.length "pem:")
                            (String.length ("pem:" +:+ bytes) - String.length "pem:")
                            ("pem:" +:+ bytes)))
            else None).
    now rewrite prefix_append, substring_suffix.
  - discriminate.
  - vm_compute. reflexivity.
Defined.

Lemma empty_path_export_is_not_read_back_witness :
  is_Some (snd (NetKey.GeneratePemKeyFromNetKey NetKeyDemo.ext ""
                  {[ "./data/netkeys//net_private.key" := "b64:der:rsa-2048" ]})
             !! "private.key") /\
  NetKey.GetPemKeyPairFromPath NetKeyDemo.ext ""
    (snd (NetKey.GeneratePemKeyFromNetKey NetKeyDemo.ext ""
            {[ "./data/netkeys//net_private.key" := "b64:der:rsa-2048" ]}))
  = NetKey.GetPemKeyPairFromPath NetKeyDemo.ext ""
      {[ "./data/netkeys//net_private.key" := "b64:der:rsa-2048" ]}.
Proof.
  refine (empty_path_export_is_not_read_back NetKeyDemo.ext
            {[ "./data/netkeys//net_private.key" := "b64:der:rsa-2048" ]}
            (snd (NetKey.GeneratePemKeyFromNetKey NetKeyDemo.ext ""
                    {[ "./data/netkeys//net_private.key" := "b64:der:rsa-2048" ]}))
            _ _).
  - vm_compute. discriminate.
  - vm_compute. reflexivity.
Defined.

(** X26.  [GenerateUniqueRandList], given that the generator's [Perm]
    answers a permutation of [0 .. max-1]: the list has [min size max]
    elements when both arguments are positive and none otherwise, its
    elements are pairwise different, and each lies in [0 .. max-1]. *)
Theorem unique_rand_list (Perm : Z -> list Z) (size max : Z) :
  Perm max ≡ₚ seqZ 0 max ->
  length (GenerateUniqueRandList Perm size max)
    = Z.to_nat (if (max <=? 0) || (size <=? 0) then 0 else Z.min size max) /\
  NoDup (GenerateUniqueRandList Perm size max) /\
  (forall x, x ∈ GenerateUniqueRandList Perm size max -> 0 <= x < max).
Proof.
  intros Hperm. unfold GenerateUniqueRandList.
  destruct ((max <=? 0) || (size <=? 0)) eqn:Hbad.
  - split; [reflexivity |]. split; [constructor |]. intros x Hx. inversion Hx.
  - apply orb_false_iff in Hbad. destruct Hbad as [Hmax Hsize].
    apply Z.leb_gt in Hmax, Hsize.
    assert (Hlen : length (Perm max) = Z.to_nat max).
    { rewrite Hperm. apply length_seqZ. }
    assert (Hnd : NoDup (Perm max)).
    { rewrite Hperm. apply NoDup_seqZ. }
    split; [| split].
    + rewrite length_take, Hlen. destruct (max <? size) eqn:Hlt.
      * apply Z.ltb_lt in Hlt. lia.
      * apply Z.ltb_ge in Hlt. lia.
    + eapply sublist_NoDup; [exact Hnd | apply sublist_take].
    + intros x Hx. apply subseteq_take in Hx. rewrite Hperm in Hx.
      apply elem_of_seqZ in Hx. lia.
Qed.

Lemma unique_rand_list_witness :
  length (GenerateUniqueRandList (fun n => List.rev (seqZ 0 n)) 3 5) = 3%nat /\
  NoDup (GenerateUniqueRandList (fun n => List.rev (seqZ 0 n)) 3 5) /\
  (forall x, x ∈ GenerateUniqueRandList (fun n => List.rev (seqZ 0 n)) 3 5 -> 0 <= x < 5).
Proof.
  apply (unique_rand_list (fun n => List.rev (seqZ 0 n)) 3 5).
  symmetry. apply Permutation_rev.
Defined.

